(** * Around service ([service/main.go]): post ingestion and geo search

    A shallow embedding of the HTTP handlers [handlePost] and
    [handleSearch] and of the store adapters [saveToGCS], [saveToES],
    [readFromES] and [saveToBigTable], together with the properties the
    specification states about them.

    [createIndexIfNotExist] (schema provisioning at start-up) is embedded
    over a world of its own; [main] (routing and the JWT middleware) is
    not embedded.

    The handlers talk to three external services (Cloud Storage,
    ElasticSearch, Bigtable).  These are modelled by a [World]: the
    contents of the stores, the list of API calls issued so far, the text
    printed on standard output, and an oracle that decides which calls the
    services refuse.  A call whose body the client cannot encode as JSON
    fails in the client, whatever the service would say.  Every handler
    is a function in a small state monad over [World] whose outcome is
    either a value or a Go panic. *)

From Stdlib Require Import ZArith Ascii String List Lia.
From Stdlib Require Import Floats.SpecFloat.
From stdpp Require Import base option list gmap strings pretty.

Local Open Scope string_scope.
Local Open Scope list_scope.
Local Open Scope Z_scope.

(** ** float64

    Go's [float64] is IEEE-754 binary64: 53 bits of precision, infinities
    at exponent 1024. *)

Definition float64 := spec_float.

Definition prec64 : Z := 53.
Definition emax64 : Z := 1024.

Definition float64_of_Z (n : Z) : float64 :=
  binary_normalize prec64 emax64 n 0 false.


(** ** strconv

    [strconv.ParseFloat] belongs to Go's standard library.  The model
    follows the library: [special] recognises the infinities and NaN,
    [readFloat] scans a decimal or hexadecimal literal, and the result is
    the nearest binary64 value (ties to even).  A string that is not well
    formed yields [0] and [ErrSyntax]; a well-formed number beyond the
    largest float yields an infinity and [ErrRange].  The mantissa is kept
    exact, since the library guarantees a correctly rounded result. *)

Module strconv.

Inductive NumError := ErrSyntax | ErrRange.

Definition byte_of (c : ascii) : Z := Z.of_N (N_of_ascii c).

Definition between (lo : ascii) (c : ascii) (hi : ascii) : bool :=
  (byte_of lo <=? byte_of c) && (byte_of c <=? byte_of hi).

(** [lower(c)] is [c | ('x' - 'X')]. *)
Definition lower (c : ascii) : ascii :=
  ascii_of_N (N.lor (N_of_ascii c) 32).

Definition is_digit (c : ascii) : bool := between "0" c "9".

Definition is_hex_letter (c : ascii) : bool := between "a" (lower c) "f".

Fixpoint commonPrefixLenIgnoreCase (s prefix : string) : nat :=
  match s, prefix with
  | String c s', String p prefix' =>
      let c' := if between "A" c "Z"
                then ascii_of_N (N_of_ascii c + 32) else c in
      if Ascii.eqb c' p then S (commonPrefixLenIgnoreCase s' prefix') else O
  | _, _ => O
  end.

(** [special]: the value and the number of bytes consumed. *)
Definition special_inf (neg : bool) (nsign : nat) (s : string)
  : option (float64 * nat) :=
  let n := commonPrefixLenIgnoreCase s "infinity" in
  let n := if (3 <? n)%nat && (n <? 8)%nat then 3%nat else n in
  if (n =? 3)%nat || (n =? 8)%nat
  then Some (S754_infinity neg, (nsign + n)%nat)
  else None.

Definition special (s : string) : option (float64 * nat) :=
  match s with
  | EmptyString => None
  | String c rest =>
      if Ascii.eqb c "+" then special_inf false 1 rest
      else if Ascii.eqb c "-" then special_inf true 1 rest
      else if Ascii.eqb c "i" || Ascii.eqb c "I" then special_inf false 0 s
      else if Ascii.eqb c "n" || Ascii.eqb c "N" then
        if (commonPrefixLenIgnoreCase s "nan" =? 3)%nat
        then Some (S754_nan, 3%nat) else None
      else None
  end.

(** The state of the digit loop of [readFloat]. *)
Record scan := Scan {
  underscores : bool;
  sawdot : bool;
  sawdigits : bool;
  nd : Z;
  mantissa : Z;
  dp : Z
}.

Definition scan0 : scan := Scan false false false 0 0 0.

(** The digit loop: returns the state and the unread rest at the first
    byte that is part of neither the integer nor the fraction. *)
Fixpoint scan_digits (hex : bool) (st : scan) (s : string) : scan * string :=
  match s with
  | EmptyString => (st, s)
  | String c s' =>
      let '(Scan us dot dig n m d) := st in
      if Ascii.eqb c "_" then scan_digits hex (Scan true dot dig n m d) s'
      else if Ascii.eqb c "." then
        if dot then (st, s)
        else scan_digits hex (Scan us true dig n m n) s'
      else if is_digit c then
        if Ascii.eqb c "0" && (n =? 0)
        then scan_digits hex (Scan us dot true n m (d - 1)) s'
        else scan_digits hex
               (Scan us dot true (n + 1)
                  (m * (if hex then 16 else 10) + (byte_of c - byte_of "0")) d)
               s'
      else if hex && is_hex_letter c then
        scan_digits hex
          (Scan us dot true (n + 1)
             (m * 16 + (byte_of (lower c) - byte_of "a" + 10)) d)
          s'
      else (st, s)
  end.

(** The digits of the exponent: [e] stops growing at 10000. *)
Fixpoint scan_exp (us : bool) (e : Z) (s : string) : bool * Z * string :=
  match s with
  | String c s' =>
      if Ascii.eqb c "_" then scan_exp true e s'
      else if is_digit c then
        scan_exp us (if e <? 10000 then e * 10 + (byte_of c - byte_of "0") else e) s'
      else (us, e, s)
  | EmptyString => (us, e, s)
  end.

(** [underscoreOK]: underscores only between digits, or between a base
    prefix and a digit.  [saw] is the kind of the last byte seen. *)
Inductive saw_kind := SawStart | SawDigit | SawUnderscore | SawOther.

Fixpoint underscore_loop (hex : bool) (saw : saw_kind) (s : string) : bool :=
  match s with
  | EmptyString => match saw with SawUnderscore => false | _ => true end
  | String c s' =>
      if is_digit c || (hex && is_hex_letter c)
      then underscore_loop hex SawDigit s'
      else if Ascii.eqb c "_" then
        match saw with
        | SawDigit => underscore_loop hex SawUnderscore s'
        | _ => false
        end
      else
        match saw with
        | SawUnderscore => false
        | _ => underscore_loop hex SawOther s'
        end
  end.

Definition strip_sign (s : string) : bool * string :=
  match s with
  | String c s' =>
      if Ascii.eqb c "+" then (false, s')
      else if Ascii.eqb c "-" then (true, s')
      else (false, s)
  | EmptyString => (false, s)
  end.

Definition underscoreOK (s : string) : bool :=
  let s := snd (strip_sign s) in
  match s with
  | String c0 (String c1 s') =>
      if Ascii.eqb c0 "0" &&
         (Ascii.eqb (lower c1) "b" || Ascii.eqb (lower c1) "o"
          || Ascii.eqb (lower c1) "x")
      then underscore_loop (Ascii.eqb (lower c1) "x") SawDigit s'
      else underscore_loop false SawStart s
  | _ => underscore_loop false SawStart s
  end.

(** What [readFloat] hands on: base, sign, exact mantissa, and the
    exponent of the base (10, or 2 for a hexadecimal literal). *)
Record literal := Literal {
  lit_hex : bool;
  lit_neg : bool;
  lit_mantissa : Z;
  lit_exp : Z
}.

(** The optional exponent.  [None]: malformed. *)
Definition read_exponent (hex : bool) (s : string)
  : option (bool * Z * string) :=
  match s with
  | String c s1 =>
      if Ascii.eqb (lower c) (if hex then "p" else "e")%char then
        let '(eneg, s2) := strip_sign s1 in
        match s2 with
        | String d _ =>
            if is_digit d then
              let '(us, e, rest) := scan_exp false 0 s2 in
              Some (us, if eneg then - e else e, rest)
            else None
        | EmptyString => None
        end
      else if hex then None else Some (false, 0, s)
  | EmptyString => if hex then None else Some (false, 0, s)
  end.

(** [readFloat], for a string that must be consumed whole (as
    [ParseFloat] requires): [None] when the literal is malformed or bytes
    are left over. *)
Definition readFloat (s : string) : option literal :=
  match s with
  | EmptyString => None
  | _ =>
      let '(neg, s1) := strip_sign s in
      let '(hex, s2) :=
        match s1 with
        | String c0 (String c1 ((String _ _) as s2)) =>
            if Ascii.eqb c0 "0" && Ascii.eqb (lower c1) "x"
            then (true, s2) else (false, s1)
        | _ => (false, s1)
        end in
      let '(Scan us dot dig n m d, s3) := scan_digits hex scan0 s2 in
      if negb dig then None
      else
        let d := if dot then d else n in
        let '(d, n) := if hex then (d * 4, n * 4) else (d, n) in
        match read_exponent hex s3 with
        | None => None
        | Some (us', e, rest) =>
            match rest with
            | EmptyString =>
                if (us || us') && negb (underscoreOK s) then None
                else Some (Literal hex neg m (if m =? 0 then 0 else d + e - n))
            | _ => None
            end
        end
  end.

(** The nearest binary64 value of [m * 10^e] for [m > 0]. *)
Definition round_decimal (neg : bool) (m e : Z) : float64 :=
  if 0 <=? e
  then binary_normalize prec64 emax64 ((if neg then - m else m) * 10 ^ e) 0 neg
  else
    let '(q, e', l) := SFdiv_core_binary prec64 emax64 m 0 (10 ^ (- e)) 0 in
    binary_round_aux prec64 emax64 neg q e' l.

Definition literal_value (l : literal) : float64 :=
  let '(Literal hex neg m e) := l in
  if m =? 0 then S754_zero neg
  else if hex
  then binary_normalize prec64 emax64 (if neg then - m else m) e neg
  else round_decimal neg m e.

Definition ParseFloat (s : string) : float64 * option NumError :=
  match special s with
  | Some (f, n) =>
      if (n =? String.length s)%nat then (f, None)
      else (S754_zero false, Some ErrSyntax)
  | None =>
      match readFloat s with
      | None => (S754_zero false, Some ErrSyntax)
      | Some l =>
          let f := literal_value l in
          match f with
          | S754_infinity _ => (f, Some ErrRange)
          | _ => (f, None)
          end
      end
  end.

End strconv.

(** ** Data model *)

(** A Go [error] is represented by its message. *)
Definition error := string.

Inductive result (A : Type) : Type :=
| Ok (a : A)
| Err (e : error).
Arguments Ok {A} a.
Arguments Err {A} e.

Definition nl : string := String (ascii_of_nat 10) EmptyString.

Record Location := { Lat : float64; Lon : float64 }.

Record Post := {
  User : string;
  Message : string;
  Post_Location : Location;
  Url : string
}.

(** The zero value of [Post] ([var ptyp Post]). *)
Definition zeroPost : Post :=
  {| User := ""; Message := "";
     Post_Location := {| Lat := S754_zero false; Lon := S754_zero false |};
     Url := "" |}.

Definition DISTANCE : string := "200km".
Definition POST_INDEX : string := "post".
Definition POST_TYPE : string := "post".
Definition ES_URL : string := "http://34.73.54.29:9200".
Definition BUCKET_NAME : string := "zhida-post-around-image".
Definition ENABLE_BIGTABLE : bool := false.

Definition StatusBadRequest : Z := 400.
Definition StatusInternalServerError : Z := 500.
Definition StatusOK : Z := 200.

(** ** The external services *)

(** Cloud Storage. *)
Inductive ACLEntity := AllUsers | AllAuthenticatedUsers.
Inductive ACLRole := RoleOwner | RoleReader | RoleWriter.

Record Object := {
  obj_data : string;
  obj_acl : list (ACLEntity * ACLRole)
}.

Record ObjectAttrs := {
  Bucket : string;
  Name : string;
  MediaLink : string;
  ACL : list (ACLEntity * ACLRole)
}.

(** [storage.Writer]: bytes are buffered until [Close] commits them. *)
Record Writer := {
  wr_bucket : string;
  wr_object : string;
  wr_buf : string
}.

(** ElasticSearch. *)
Record GeoDistanceQuery := {
  q_field : string;
  q_distance : string;
  q_lat : float64;
  q_lon : float64
}.

Record SearchHit := {
  hit_Id : string;
  hit_Source : option string
}.

Record SearchResult := {
  TookInMillis : Z;
  Hits : list SearchHit
}.

(** Bigtable: one [Set] of a mutation. *)
Record Cell := {
  cell_family : string;
  cell_column : string;
  cell_ts : Z;
  cell_value : string
}.

(** Every call of a client library that addresses a service. *)
Inductive Call :=
| StorageNewClient
| BucketAttrs (bucket : string)
| WriterWrite (bucket object : string) (data : string)
| WriterClose (bucket object : string)
| ACLSet (bucket object : string) (entity : ACLEntity) (role : ACLRole)
| ObjectAttrsGet (bucket object : string)
| ElasticNewClient (url : string)
| IndexDo (index typ id : string) (body : Post) (refresh : string)
| SearchDo (index : string) (query : GeoDistanceQuery)
| BigtableNewClient (project instance : string)
| TableApply (table row : string) (mut : list Cell).

(** The world a handler runs in.  [gcs], [es] and [bigtable] are the
    contents of the three stores; [calls] lists the requests issued so far
    (oldest first) and [stdout] the lines printed.  The remaining fields
    are oracles and never change: [refuses] tells, from the requests made
    so far, whether the service fails the next one and with which error;
    [media_link] is the download URL Cloud Storage assigns to an object;
    [search] is the answer of ElasticSearch to a query; [uuids] is the
    stream of identifiers [uuid.New] draws from; [now] is the Bigtable
    clock. *)
Record World := {
  gcs : gmap string (gmap string Object);
  es : gmap string (gmap string Post);
  bigtable : gmap string (gmap string (list Cell));
  calls : list Call;
  stdout : list string;
  uuid_count : nat;
  refuses : list Call -> Call -> option error;
  media_link : string -> string -> string;
  search : string -> GeoDistanceQuery -> SearchResult;
  uuids : nat -> string;
  now : Z
}.

Definition with_gcs (w : World) (g : gmap string (gmap string Object)) : World :=
  {| gcs := g; es := es w; bigtable := bigtable w; calls := calls w;
     stdout := stdout w; uuid_count := uuid_count w; refuses := refuses w;
     media_link := media_link w; search := search w; uuids := uuids w;
     now := now w |}.

Definition with_es (w : World) (e : gmap string (gmap string Post)) : World :=
  {| gcs := gcs w; es := e; bigtable := bigtable w; calls := calls w;
     stdout := stdout w; uuid_count := uuid_count w; refuses := refuses w;
     media_link := media_link w; search := search w; uuids := uuids w;
     now := now w |}.

Definition with_bigtable (w : World)
    (b : gmap string (gmap string (list Cell))) : World :=
  {| gcs := gcs w; es := es w; bigtable := b; calls := calls w;
     stdout := stdout w; uuid_count := uuid_count w; refuses := refuses w;
     media_link := media_link w; search := search w; uuids := uuids w;
     now := now w |}.

Definition with_calls (w : World) (c : list Call) : World :=
  {| gcs := gcs w; es := es w; bigtable := bigtable w; calls := c;
     stdout := stdout w; uuid_count := uuid_count w; refuses := refuses w;
     media_link := media_link w; search := search w; uuids := uuids w;
     now := now w |}.

Definition with_stdout (w : World) (o : list string) : World :=
  {| gcs := gcs w; es := es w; bigtable := bigtable w; calls := calls w;
     stdout := o; uuid_count := uuid_count w; refuses := refuses w;
     media_link := media_link w; search := search w; uuids := uuids w;
     now := now w |}.

Definition with_uuid_count (w : World) (n : nat) : World :=
  {| gcs := gcs w; es := es w; bigtable := bigtable w; calls := calls w;
     stdout := stdout w; uuid_count := n; refuses := refuses w;
     media_link := media_link w; search := search w; uuids := uuids w;
     now := now w |}.

(** ** The monad of handlers: state over [World], with panics *)

Inductive Outcome (A : Type) : Type :=
| Return (a : A)
| Panic (e : error).
Arguments Return {A} a.
Arguments Panic {A} e.

Definition M (A : Type) : Type := World -> Outcome A * World.

Definition ret {A} (a : A) : M A := fun w => (Return a, w).

Definition bind {A B} (m : M A) (k : A -> M B) : M B :=
  fun w =>
    match m w with
    | (Return a, w') => k a w'
    | (Panic e, w') => (Panic e, w')
    end.

Definition panic {A} (e : error) : M A := fun w => (Panic e, w).

Notation "'let*' x ':=' m 'in' k" := (bind m (fun x => k))
  (at level 10, x name, m at level 100, k at level 200).

(** [if err != nil { return nil, err }] *)
Notation "'try*' x ':=' m 'in' k" :=
  (bind m (fun r => match r with
                    | Err e => ret (Err e)
                    | Ok x => k
                    end))
  (at level 10, x name, m at level 100, k at level 200).

(** [fmt.Printf] and [fmt.Println], with the text already formatted. *)
Definition Printf (s : string) : M unit :=
  fun w => (Return tt, with_stdout w (stdout w ++ [s])).

(** [json.Marshal] of a [float64]: NaN and the infinities have no JSON
    form, and the encoder fails with an [UnsupportedValueError]. *)
Definition json_unsupported (f : float64) : option error :=
  match f with
  | S754_nan => Some "json: unsupported value: NaN"
  | S754_infinity false => Some "json: unsupported value: +Inf"
  | S754_infinity true => Some "json: unsupported value: -Inf"
  | _ => None
  end.

(** The elastic client encodes the body of a request with [json.Marshal]
    ([Request.SetBody] in [PerformRequest]) before it sends it: the
    document of an index request, the geo-distance query of a search.
    The fields are encoded in order, lat before lon; strings always
    encode. *)
Definition encoding_error (c : Call) : option error :=
  match c with
  | IndexDo _ _ _ body _ =>
      match json_unsupported (Lat (Post_Location body)) with
      | Some e => Some e
      | None => json_unsupported (Lon (Post_Location body))
      end
  | SearchDo _ q =>
      match json_unsupported (q_lat q) with
      | Some e => Some e
      | None => json_unsupported (q_lon q)
      end
  | _ => None
  end.

(** The answer to the call [c] after the calls [h], under the oracle
    [refuses].  A call whose body cannot be encoded never succeeds: it
    fails with the error of the oracle when the client cannot reach the
    service at all (the client picks its connection first), and with the
    error of the encoder otherwise, no request being sent.  Every other
    call is decided by the oracle. *)
Definition answer (refuses : list Call -> Call -> option error)
    (h : list Call) (c : Call) : option error :=
  match encoding_error c with
  | None => refuses h c
  | Some e' =>
      match refuses h c with
      | Some e => Some e
      | None => Some e'
      end
  end.

(** Issue a call: it is recorded, and answered. *)
Definition call (c : Call) : M (option error) :=
  fun w =>
    (Return (answer (refuses w) (calls w) c), with_calls w (calls w ++ [c])).

(** [uuid.New()] *)
Definition uuid_New : M string :=
  fun w => (Return (uuids w (uuid_count w)),
            with_uuid_count w (S (uuid_count w))).

(** Read a component of the world. *)
Definition gets {A} (f : World -> A) : M A := fun w => (Return (f w), w).

(** ** Cloud Storage client *)

Definition ErrBucketNotExist : error := "storage: bucket doesn't exist".
Definition ErrObjectNotExist : error := "storage: object doesn't exist".

Definition lookup_object (w : World) (b o : string) : option Object :=
  match gcs w !! b with
  | Some objs => objs !! o
  | None => None
  end.

Definition store_object (w : World) (b o : string) (x : Object) : World :=
  match gcs w !! b with
  | Some objs => with_gcs w (<[b := <[o := x]> objs]> (gcs w))
  | None => w
  end.

(** [storage.NewClient(ctx)] *)
Definition storage_NewClient : M (result unit) :=
  let* e := call StorageNewClient in
  ret (match e with Some err => Err err | None => Ok tt end).

(** [bucket.Attrs(ctx)]: fails on a bucket that does not exist. *)
Definition Bucket_Attrs (b : string) : M (result unit) :=
  let* e := call (BucketAttrs b) in
  match e with
  | Some err => ret (Err err)
  | None =>
      let* g := gets gcs in
      ret (match g !! b with
           | Some _ => Ok tt
           | None => Err ErrBucketNotExist
           end)
  end.

(** [object.NewWriter(ctx)] *)
Definition Object_NewWriter (b o : string) : Writer :=
  {| wr_bucket := b; wr_object := o; wr_buf := "" |}.

(** [io.Copy(wc, r)]: the bytes of [r] reach the writer, or the copy
    fails part-way. *)
Definition io_Copy (wc : Writer) (data : string) : M (result Writer) :=
  let* e := call (WriterWrite (wr_bucket wc) (wr_object wc) data) in
  ret (match e with
       | Some err => Err err
       | None => Ok {| wr_bucket := wr_bucket wc; wr_object := wr_object wc;
                       wr_buf := wr_buf wc +:+ data |}
       end).

(** [wc.Close()]: the object comes into existence here. *)
Definition Writer_Close (wc : Writer) : M (result unit) :=
  let* e := call (WriterClose (wr_bucket wc) (wr_object wc)) in
  match e with
  | Some err => ret (Err err)
  | None =>
      fun w =>
        match gcs w !! wr_bucket wc with
        | Some _ =>
            (Return (Ok tt),
             store_object w (wr_bucket wc) (wr_object wc)
               {| obj_data := wr_buf wc; obj_acl := [] |})
        | None => (Return (Err ErrBucketNotExist), w)
        end
  end.

(** [object.ACL().Set(ctx, entity, role)] *)
Definition ACL_Set (b o : string) (entity : ACLEntity) (role : ACLRole)
  : M (result unit) :=
  let* e := call (ACLSet b o entity role) in
  match e with
  | Some err => ret (Err err)
  | None =>
      fun w =>
        match lookup_object w b o with
        | Some x =>
            (Return (Ok tt),
             store_object w b o
               {| obj_data := obj_data x;
                  obj_acl := (entity, role) :: obj_acl x |})
        | None => (Return (Err ErrObjectNotExist), w)
        end
  end.

(** [object.Attrs(ctx)] *)
Definition Object_Attrs (b o : string) : M (result ObjectAttrs) :=
  let* e := call (ObjectAttrsGet b o) in
  match e with
  | Some err => ret (Err err)
  | None =>
      fun w =>
        match lookup_object w b o with
        | Some x =>
            (Return (Ok {| Bucket := b; Name := o;
                           MediaLink := media_link w b o;
                           ACL := obj_acl x |}), w)
        | None => (Return (Err ErrObjectNotExist), w)
        end
  end.

(** [saveToGCS] *)
Definition saveToGCS (r : string) (bucketName objectName : string)
  : M (result ObjectAttrs) :=
  try* _ := storage_NewClient in
  try* _ := Bucket_Attrs bucketName in
  let wc := Object_NewWriter bucketName objectName in
  try* wc := io_Copy wc r in
  try* _ := Writer_Close wc in
  try* _ := ACL_Set bucketName objectName AllUsers RoleReader in
  try* attrs := Object_Attrs bucketName objectName in
  let* _ := Printf ("Image is saved to GCS: " +:+ MediaLink attrs +:+ nl) in
  ret (Ok attrs).

(** ** ElasticSearch client *)

(** [elastic.NewClient(elastic.SetURL(url), elastic.SetSniff(false))] *)
Definition elastic_NewClient (url : string) : M (result unit) :=
  let* e := call (ElasticNewClient url) in
  ret (match e with Some err => Err err | None => Ok tt end).

(** [client.Index().Index(i).Type(t).Id(id).BodyJson(p).Refresh(r).Do(ctx)]:
    the document is stored under [id], replacing an older one.  [Do]
    fails, and stores nothing, when the document cannot be encoded (see
    [answer]) or when the service refuses the request; what the service
    refuses, be it for a node that is down or for a document the mapping
    of the index does not admit, is the oracle's to say. *)
Definition Index_Do (index typ id : string) (body : Post) (refresh : string)
  : M (result unit) :=
  let* e := call (IndexDo index typ id body refresh) in
  match e with
  | Some err => ret (Err err)
  | None =>
      fun w =>
        (Return (Ok tt),
         with_es w (<[index := <[id := body]> (default ∅ (es w !! index))]>
                      (es w)))
  end.

(** [client.Search().Index(i).Query(q).Pretty(true).Do(ctx)]: fails when
    the service refuses the request or when the query cannot be encoded
    (see [answer]). *)
Definition Search_Do (index : string) (q : GeoDistanceQuery)
  : M (result SearchResult) :=
  let* e := call (SearchDo index q) in
  match e with
  | Some err => ret (Err err)
  | None =>
      let* f := gets search in
      ret (Ok (f index q))
  end.

(** [saveToES]: [None] is Go's [nil] error. *)
Definition saveToES (post : Post) (id : string) : M (option error) :=
  let* c := elastic_NewClient ES_URL in
  match c with
  | Err err => ret (Some err)
  | Ok _ =>
      let* r := Index_Do POST_INDEX POST_TYPE id post "wait_for" in
      match r with
      | Err err => ret (Some err)
      | Ok _ =>
          let* _ := Printf ("Post is saved to index: " +:+ Message post +:+ nl) in
          ret None
      end
  end.

(** ** Bigtable client *)

(** [bigtable.NewClient(ctx, project, instance, ...)] *)
Definition bigtable_NewClient (project instance : string) : M (result unit) :=
  let* e := call (BigtableNewClient project instance) in
  ret (match e with Some err => Err err | None => Ok tt end).

(** [tbl.Apply(ctx, row, mut)]: the cells are added to the row. *)
Definition Table_Apply (table row : string) (mut : list Cell)
  : M (result unit) :=
  let* e := call (TableApply table row mut) in
  match e with
  | Some err => ret (Err err)
  | None =>
      fun w =>
        let rows : gmap string (list Cell) :=
          default ∅ (bigtable w !! table) in
        let cells : list Cell := default [] (rows !! row) in
        (Return (Ok tt),
         with_bigtable w (<[table := <[row := cells ++ mut]> rows]>
                            (bigtable w)))
  end.

(** ** net/http *)

(** The part of [http.Request] the handlers read: the parsed form
    ([r.Form]), the uploaded files and the query of the URL
    ([r.URL.Query()]).  [Files] is [r.MultipartForm.File] when the
    request has a multipart form, each file being what [Open] gives for
    it (its bytes, or an error); otherwise it is the error of
    [ParseMultipartForm], which is [ErrNotMultipart] for a request that is
    not multipart. *)
Record Request := {
  Form : gmap string (list string);
  Files : result (gmap string (list (result string)));
  URL_Query : gmap string (list string)
}.

(** [url.Values.Get]: the first value of the key, or the empty string. *)
Definition Values_Get (v : gmap string (list string)) (key : string) : string :=
  match v !! key with
  | Some (x :: _) => x
  | _ => ""
  end.

Definition FormValue (r : Request) (key : string) : string :=
  Values_Get (Form r) key.

Definition ErrMissingFile : error := "http: no such file".
Definition ErrNotMultipart : error :=
  "request Content-Type isn't multipart/form-data".

(** [r.FormFile(key)]: the error of parsing the multipart form if there
    is none, else the first file of the key, opened, else
    [ErrMissingFile]. *)
Definition FormFile (r : Request) (key : string) : result string :=
  match Files r with
  | Err e => Err e
  | Ok files =>
      match files !! key with
      | Some (f :: _) => f
      | _ => Err ErrMissingFile
      end
  end.

(** [http.ResponseWriter]: the header map, the status once written, and
    the body. *)
Record ResponseWriter := {
  Header : gmap string string;
  status : option Z;
  body : string
}.

Definition newResponse : ResponseWriter :=
  {| Header := ∅; status := None; body := "" |}.

Definition Header_Set (w : ResponseWriter) (k v : string) : ResponseWriter :=
  {| Header := <[k := v]> (Header w); status := status w; body := body w |}.

Definition Header_Del (w : ResponseWriter) (k : string) : ResponseWriter :=
  {| Header := delete k (Header w); status := status w; body := body w |}.

(** [w.WriteHeader(code)]: only the first call counts. *)
Definition WriteHeader (w : ResponseWriter) (code : Z) : ResponseWriter :=
  match status w with
  | Some _ => w
  | None => {| Header := Header w; status := Some code; body := body w |}
  end.

(** [w.Write(b)]: writes the status 200 first if none was written. *)
Definition Write (w : ResponseWriter) (b : string) : ResponseWriter :=
  let w := WriteHeader w StatusOK in
  {| Header := Header w; status := status w; body := body w +:+ b |}.

(** [http.Error(w, msg, code)] *)
Definition http_Error (w : ResponseWriter) (msg : string) (code : Z)
  : ResponseWriter :=
  let w := Header_Del w "Content-Length" in
  let w := Header_Set w "Content-Type" "text/plain; charset=utf-8" in
  let w := Header_Set w "X-Content-Type-Options" "nosniff" in
  let w := WriteHeader w code in
  Write w (msg +:+ nl).

(** ** A concrete instance, for evaluation *)

Module Sample.

(** A filter that rejects every message containing the word "spam". *)
Definition filter (s : string) : bool :=
  match String.index 0 "spam" s with
  | Some _ => true
  | None => false
  end.

(** A decoder that accepts the sources starting with an opening brace and
    takes the whole source as the message. *)
Definition decode (src : string) : option Post :=
  if String.prefix "{" src
  then Some {| User := "u"; Message := src;
               Post_Location := Post_Location zeroPost; Url := "" |}
  else None.

Definition encode (posts : list Post) : result string :=
  Ok (String.concat "," (map Message posts)).

Definition format (f : float64) : string := "0".

Definition accept_all : list Call -> Call -> option error := fun _ _ => None.

Definition world (refuses : list Call -> Call -> option error) : World :=
  {| gcs := {[ BUCKET_NAME := ∅ ]};
     es := ∅;
     bigtable := ∅;
     calls := [];
     stdout := [];
     uuid_count := 0;
     refuses := refuses;
     media_link := fun b o => "https://storage.googleapis.com/" +:+ b +:+ "/" +:+ o;
     search := fun _ _ =>
       {| TookInMillis := 3;
          Hits := [ {| hit_Id := "a"; hit_Source := Some "{hello" |};
                    {| hit_Id := "b"; hit_Source := Some "not json" |};
                    {| hit_Id := "c"; hit_Source := Some "{spam here" |} ] |};
     uuids := fun n => "id-" +:+ pretty n;
     now := 0 |}.

Definition request (lat lon message : string) : Request :=
  {| Form := {[ "lat" := [lat]; "lon" := [lon]; "message" := [message];
                "user" := ["alice"] ]};
     Files := Ok {[ "image" := [Ok "PNG"] ]};
     URL_Query := ∅ |}.

Definition search_request (range : list string) : Request :=
  {| Form := ∅; Files := Err ErrNotMultipart;
     URL_Query := {[ "lat" := ["37.7"]; "lon" := ["-122.4"]; "range" := range ]} |}.

(** Bigtable cannot be reached; the other services answer. *)
Definition bigtable_down : list Call -> Call -> option error :=
  fun _ c =>
    match c with
    | BigtableNewClient _ _ => Some "bigtable: unavailable"
    | _ => None
    end.

Definition quiet_world : World := world accept_all.

Definition hello_request : Request := request "37.7" "-122.4" "hello".
Definition spam_request : Request := request "37.7" "-122.4" "cheap spam".

End Sample.


(** ** What a run leaves behind *)

(** The requests [saveToGCS] issues, in order. *)
Definition gcs_stages (b o data : string) : list Call :=
  [ StorageNewClient; BucketAttrs b; WriterWrite b o data; WriterClose b o;
    ACLSet b o AllUsers RoleReader; ObjectAttrsGet b o ].

(** The requests [saveToES] issues. *)
Definition index_calls (id : string) (p : Post) : list Call :=
  [ ElasticNewClient ES_URL; IndexDo POST_INDEX POST_TYPE id p "wait_for" ].

(** The answer to the [n]-th call of the sequence [cs] issued from the
    world [σ], the earlier ones having been issued: [None] when the call
    goes through. *)
Definition verdict (σ : World) (cs : list Call) (n : nat) : option error :=
  match cs !! n with
  | Some c => answer (refuses σ) (calls σ ++ take n cs) c
  | None => None
  end.

(** An object holding [data], readable by everyone. *)
Definition public_object (data : string) : Object :=
  {| obj_data := data; obj_acl := [(AllUsers, RoleReader)] |}.

(** The parts of the world no handler writes. *)
Definition same_oracles (σ σ' : World) : Prop :=
  refuses σ' = refuses σ /\ media_link σ' = media_link σ /\
  search σ' = search σ /\ uuids σ' = uuids σ /\ now σ' = now σ.

(** The index after a document has been put under [id]. *)
Definition index_put (e : gmap string (gmap string Post))
    (index id : string) (p : Post) : gmap string (gmap string Post) :=
  <[index := <[id := p]> (default ∅ (e !! index))]> e.

Definition lookup_doc (σ : World) (index id : string) : option Post :=
  match es σ !! index with
  | Some docs => docs !! id
  | None => None
  end.

(** ** Index administration, as [createIndexIfNotExist] uses it

    Provisioning runs once at start-up, before any handler, and only asks
    ElasticSearch which indices exist and creates the missing ones.  Its
    world is the set of indices, each with the body it was created with
    ([None]: created without a body), the requests issued so far and the
    oracle of refusals. *)

Inductive AdminCall :=
| AdminNewClient (url : string)
| IndexExistsDo (index : string)
| CreateIndexDo (index : string) (body : option string).

Record Cluster := {
  indices : gmap string (option string);
  admin_calls : list AdminCall;
  admin_refuses : list AdminCall -> AdminCall -> option error
}.

Definition Boot (A : Type) : Type := Cluster -> Outcome A * Cluster.

Definition boot_ret {A} (a : A) : Boot A := fun c => (Return a, c).

Definition boot_bind {A B} (m : Boot A) (k : A -> Boot B) : Boot B :=
  fun c =>
    match m c with
    | (Return a, c') => k a c'
    | (Panic e, c') => (Panic e, c')
    end.

Definition boot_panic {A} (e : error) : Boot A := fun c => (Panic e, c).

(** [x, err := m; if err != nil { panic(err) }] *)
Notation "'must*' x ':=' m 'in' k" :=
  (boot_bind m (fun r => match r with
                         | Err e => boot_panic e
                         | Ok x => k
                         end))
  (at level 10, x name, m at level 100, k at level 200).

Definition admin_call (a : AdminCall) : Boot (option error) :=
  fun c =>
    (Return (admin_refuses c (admin_calls c) a),
     {| indices := indices c;
        admin_calls := admin_calls c ++ [a];
        admin_refuses := admin_refuses c |}).

Definition admin_NewClient (url : string) : Boot (result unit) :=
  boot_bind (admin_call (AdminNewClient url))
    (fun e => boot_ret (match e with Some err => Err err | None => Ok tt end)).

(** [client.IndexExists(index).Do(ctx)] *)
Definition IndexExists_Do (index : string) : Boot (result bool) :=
  boot_bind (admin_call (IndexExistsDo index))
    (fun e c =>
       (Return (match e with
                | Some err => Err err
                | None => Ok (bool_decide (is_Some (indices c !! index)))
                end), c)).

Definition ErrIndexExists : error := "resource_already_exists_exception".

(** [client.CreateIndex(index).Body(body).Do(ctx)]: ElasticSearch refuses
    to create an index that exists. *)
Definition CreateIndex_Do (index : string) (body : option string)
  : Boot (result unit) :=
  boot_bind (admin_call (CreateIndexDo index body))
    (fun e c =>
       match e with
       | Some err => (Return (Err err), c)
       | None =>
           match indices c !! index with
           | Some _ => (Return (Err ErrIndexExists), c)
           | None =>
               (Return (Ok tt),
                {| indices := <[index := body]> (indices c);
                   admin_calls := admin_calls c;
                   admin_refuses := admin_refuses c |})
           end
       end).

Definition dq : string := String (ascii_of_nat 34) EmptyString.
Definition tab : string := String (ascii_of_nat 9) EmptyString.

(** The mapping literal of [createIndexIfNotExist], byte for byte. *)
Definition POST_MAPPING : string :=
  "{" +:+ nl +:+
  "            " +:+ dq +:+ "mappings" +:+ dq +:+ ": {" +:+ nl +:+
  "                " +:+ dq +:+ "post" +:+ dq +:+ ": {" +:+ nl +:+
  "                    " +:+ dq +:+ "properties" +:+ dq +:+ ": {" +:+ nl +:+
  "                        " +:+ dq +:+ "location" +:+ dq +:+ ": {" +:+ nl +:+
  "                            " +:+ dq +:+ "type" +:+ dq +:+ ": " +:+ dq
    +:+ "geo_point" +:+ dq +:+ nl +:+
  "                        }" +:+ nl +:+
  "                    }" +:+ nl +:+
  "                }" +:+ nl +:+
  "            }" +:+ nl +:+
  tab +:+ tab +:+ "}".

(** The request [r] with the query parameter [key] replaced by [value]. *)
Definition with_query (r : Request) (key value : string) : Request :=
  {| Form := Form r;
     Files := Files r;
     URL_Query := <[key := [value]]> (URL_Query r) |}.

(** Further concrete worlds and requests. *)
Module Cases.

(** A post without an image part. *)
Definition no_image_request : Request :=
  {| Form := {[ "lat" := ["37.7"]; "lon" := ["-122.4"];
                "message" := ["hello"]; "user" := ["alice"] ]};
     Files := Ok ∅;
     URL_Query := ∅ |}.

(** A post sent as an ordinary form, not as a multipart one. *)
Definition plain_form_request : Request :=
  {| Form := {[ "lat" := ["37.7"]; "lon" := ["-122.4"];
                "message" := ["hello"]; "user" := ["alice"] ]};
     Files := Err ErrNotMultipart;
     URL_Query := ∅ |}.

(** Cloud Storage refuses every ACL change. *)
Definition acl_denied : list Call -> Call -> option error :=
  fun _ c =>
    match c with
    | ACLSet _ _ _ _ => Some "googleapi: Error 403: Forbidden"
    | _ => None
    end.

(** ElasticSearch refuses every index request. *)
Definition index_down : list Call -> Call -> option error :=
  fun _ c =>
    match c with
    | IndexDo _ _ _ _ _ => Some "elastic: Error 503 (Service Unavailable)"
    | _ => None
    end.

(** ElasticSearch refuses every search. *)
Definition search_down : list Call -> Call -> option error :=
  fun _ c =>
    match c with
    | SearchDo _ _ => Some "elastic: Error 503 (Service Unavailable)"
    | _ => None
    end.

(** A cluster without indices that accepts every request. *)
Definition fresh_cluster : Cluster :=
  {| indices := ∅; admin_calls := []; admin_refuses := fun _ _ => None |}.

(** A cluster that cannot be reached. *)
Definition dead_cluster : Cluster :=
  {| indices := ∅; admin_calls := [];
     admin_refuses := fun _ _ => Some "no Elasticsearch node available" |}.

(** A cluster on which both indices are in place. *)
Definition ready_cluster : Cluster :=
  {| indices := {[ "post" := Some POST_MAPPING; "user" := None ]};
     admin_calls := []; admin_refuses := fun _ _ => None |}.

Definition bad_search_request : Request :=
  {| Form := ∅; Files := Err ErrNotMultipart;
     URL_Query := {[ "lat" := ["north"]; "lon" := ["-122.4"] ]} |}.

End Cases.

(** ** The service *)

Section Service.

(** Modelled from the spec: [hasFilteredWord] is defined in another file
    of the package, not in [service/main.go].  The spec (4.1) makes it a
    deterministic predicate on the message text against a fixed word
    list, without side effects; which words are listed and how they are
    matched is left open, so it is a parameter here. *)
Variable hasFilteredWord : string -> bool.

(** Library functions taken as they are: [json.Unmarshal] into a [Post]
    ([None]: the bytes do not decode), [json.Marshal] of the result list,
    and [strconv.FormatFloat(f, 'f', -1, 64)]. *)
Variable json_Unmarshal : string -> option Post.
Variable json_Marshal : list Post -> result string.
Variable FormatFloat : float64 -> string.

(** [searchResult.Each(reflect.TypeOf(ptyp))]: one item per hit, in the
    order of the hits.  A hit without a source gives the zero [Post]; a
    hit whose source does not decode is skipped. *)
Fixpoint Each (hits : list SearchHit) : list Post :=
  match hits with
  | [] => []
  | hit :: rest =>
      match hit_Source hit with
      | None => zeroPost :: Each rest
      | Some src =>
          match json_Unmarshal src with
          | Some p => p :: Each rest
          | None => Each rest
          end
      end
  end.

(** The loop of [readFromES]: [posts = append(posts, p)] for the items
    that pass the filter.  Every item of [Each] is a [Post], so the
    assertion [item.(Post)] holds; Go's [nil] slice is the empty list. *)
Fixpoint collect (posts : list Post) (items : list Post) : list Post :=
  match items with
  | [] => posts
  | p :: rest =>
      if negb (hasFilteredWord (Message p))
      then collect (posts ++ [p]) rest
      else collect posts rest
  end.

(** [readFromES] *)
Definition readFromES (lat lon : float64) (ran : string)
  : M (result (list Post)) :=
  try* _ := elastic_NewClient ES_URL in
  let query := {| q_field := "location"; q_distance := ran;
                  q_lat := lat; q_lon := lon |} in
  try* searchResult := Search_Do POST_INDEX query in
  let* _ := Printf ("Query took " +:+ pretty (TookInMillis searchResult)
                    +:+ " milliseconds" +:+ nl) in
  ret (Ok (collect [] (Each (Hits searchResult)))).

(** [saveToBigTable]: both failures panic. *)
Definition saveToBigTable (p : Post) (id : string) : M unit :=
  let* c := bigtable_NewClient "around-229020" "around-post" in
  match c with
  | Err err => panic err
  | Ok _ =>
      let* t := gets now in
      let mut :=
        [ {| cell_family := "post"; cell_column := "user";
             cell_ts := t; cell_value := User p |};
          {| cell_family := "post"; cell_column := "message";
             cell_ts := t; cell_value := Message p |};
          {| cell_family := "location"; cell_column := "lat";
             cell_ts := t; cell_value := FormatFloat (Lat (Post_Location p)) |};
          {| cell_family := "location"; cell_column := "lon";
             cell_ts := t; cell_value := FormatFloat (Lon (Post_Location p)) |} ] in
      let* r := Table_Apply "post" id mut in
      match r with
      | Err err => panic err
      | Ok _ => Printf ("Post is saved to BigTable: " +:+ Message p +:+ nl)
      end
  end.

Definition MSG_FILTERED : string :=
  "Sorry, the post contains filtered words. Please edit again. ".

(** [handlePost], with the constant [ENABLE_BIGTABLE] as an argument. *)
Definition handlePost_with (enable_bigtable : bool)
    (w : ResponseWriter) (r : Request) : M ResponseWriter :=
  let* _ := Printf ("Received one post request" +:+ nl) in
  let w := Header_Set w "Content-Type" "application/json" in
  let w := Header_Set w "Access-Control-Allow-Origin" "*" in
  let w := Header_Set w "Access-Control-Allow-Headers"
             "Content-Type,Authorization" in
  let lat := fst (strconv.ParseFloat (FormValue r "lat")) in
  let lon := fst (strconv.ParseFloat (FormValue r "lon")) in
  let message := FormValue r "message" in
  if hasFilteredWord message then
    let w := http_Error w MSG_FILTERED StatusBadRequest in
    let* _ := Printf (MSG_FILTERED +:+ nl) in
    ret w
  else
    let p := {| User := FormValue r "user";
                Message := FormValue r "message";
                Post_Location := {| Lat := lat; Lon := lon |};
                Url := "" |} in
    let* id := uuid_New in
    match FormFile r "image" with
    | Err err =>
        let w := http_Error w "Image is not available" StatusBadRequest in
        let* _ := Printf ("Image is not available " +:+ err +:+ "." +:+ nl) in
        ret w
    | Ok file =>
        let* saved := saveToGCS file BUCKET_NAME id in
        match saved with
        | Err err =>
            let w := http_Error w "Failed to save image to GCS"
                       StatusInternalServerError in
            let* _ := Printf ("Failed to save image to GCS " +:+ err
                              +:+ "." +:+ nl) in
            ret w
        | Ok attrs =>
            let p := {| User := User p; Message := Message p;
                        Post_Location := Post_Location p;
                        Url := MediaLink attrs |} in
            let* err := saveToES p id in
            match err with
            | Some err =>
                let w := http_Error w "Failed to save post to ElasticSearch"
                           StatusInternalServerError in
                let* _ := Printf ("Failed to save post to ElasticSearch "
                                  +:+ err +:+ "." +:+ nl) in
                ret w
            | None =>
                let* _ := Printf ("Saved one post to ElasticSearch: "
                                  +:+ Message p +:+ nl) in
                if enable_bigtable
                then let* _ := saveToBigTable p id in ret w
                else ret w
            end
        end
    end.

Definition handlePost : ResponseWriter -> Request -> M ResponseWriter :=
  handlePost_with ENABLE_BIGTABLE.

(** [handleSearch] *)
Definition handleSearch (w : ResponseWriter) (r : Request)
  : M ResponseWriter :=
  let* _ := Printf ("Received one request for search" +:+ nl) in
  let w := Header_Set w "Content-Type" "application/json" in
  let w := Header_Set w "Access-Control-Allow-Origin" "*" in
  let w := Header_Set w "Access-Control-Allow-Headers"
             "Content-Type,Authorization" in
  let lat := fst (strconv.ParseFloat (Values_Get (URL_Query r) "lat")) in
  let lon := fst (strconv.ParseFloat (Values_Get (URL_Query r) "lon")) in
  let ran := DISTANCE in
  let val := Values_Get (URL_Query r) "range" in
  let ran := if negb (String.eqb val "") then val +:+ "km" else ran in
  let* res := readFromES lat lon ran in
  match res with
  | Err err =>
      let w := http_Error w "Failed to read post from ElasticSearch"
                 StatusInternalServerError in
      let* _ := Printf ("Failed to read post from ElasticSearch " +:+ err
                        +:+ "." +:+ nl) in
      ret w
  | Ok posts =>
      match json_Marshal posts with
      | Err err =>
          let w := http_Error w "Failed to parse posts into JSON format"
                     StatusInternalServerError in
          let* _ := Printf ("Failed to parse posts into JSON format " +:+ err
                            +:+ "." +:+ nl) in
          ret w
      | Ok js => ret (Write w js)
      end
  end.

(** The cells [saveToBigTable] writes for a post. *)
Definition mirror_cells (p : Post) (t : Z) : list Cell :=
  [ {| cell_family := "post"; cell_column := "user";
       cell_ts := t; cell_value := User p |};
    {| cell_family := "post"; cell_column := "message";
       cell_ts := t; cell_value := Message p |};
    {| cell_family := "location"; cell_column := "lat";
       cell_ts := t; cell_value := FormatFloat (Lat (Post_Location p)) |};
    {| cell_family := "location"; cell_column := "lon";
       cell_ts := t; cell_value := FormatFloat (Lon (Post_Location p)) |} ].

(** The requests [saveToBigTable] issues. *)
Definition mirror_calls (id : string) (p : Post) (t : Z) : list Call :=
  [ BigtableNewClient "around-229020" "around-post";
    TableApply "post" id (mirror_cells p t) ].

(** The response once the three headers of a handler are set. *)
Definition cors (w : ResponseWriter) : ResponseWriter :=
  Header_Set
    (Header_Set (Header_Set w "Content-Type" "application/json")
       "Access-Control-Allow-Origin" "*")
    "Access-Control-Allow-Headers" "Content-Type,Authorization".

(** The identifier [handlePost] draws in the world [σ]. *)
Definition drawn_id (σ : World) : string := uuids σ (uuid_count σ).

(** The post [handlePost] builds from a request, with its [url]. *)
Definition post_of (r : Request) (url : string) : Post :=
  {| User := FormValue r "user";
     Message := FormValue r "message";
     Post_Location :=
       {| Lat := fst (strconv.ParseFloat (FormValue r "lat"));
          Lon := fst (strconv.ParseFloat (FormValue r "lon")) |};
     Url := url |}.

(** The runs of [handlePost_with]: the outcome and the final world, case
    by case.  [id] is the identifier drawn, [p] the post with the URL of
    its asset. *)
Inductive ingest (en : bool) (w : ResponseWriter) (r : Request) (σ : World)
  : Outcome ResponseWriter -> World -> Prop :=
| ingest_spam σ' :
    hasFilteredWord (FormValue r "message") = true ->
    calls σ' = calls σ -> gcs σ' = gcs σ -> es σ' = es σ ->
    bigtable σ' = bigtable σ ->
    ingest en w r σ
      (Return (http_Error (cors w) MSG_FILTERED StatusBadRequest)) σ'
| ingest_no_image err σ' :
    hasFilteredWord (FormValue r "message") = false ->
    FormFile r "image" = Err err ->
    calls σ' = calls σ -> gcs σ' = gcs σ -> es σ' = es σ ->
    bigtable σ' = bigtable σ ->
    ingest en w r σ
      (Return (http_Error (cors w) "Image is not available" StatusBadRequest))
      σ'
| ingest_asset_fails file n σ' :
    hasFilteredWord (FormValue r "message") = false ->
    FormFile r "image" = Ok file ->
    (n < 6)%nat ->
    calls σ' = calls σ ++ take (S n) (gcs_stages BUCKET_NAME (drawn_id σ) file) ->
    es σ' = es σ -> bigtable σ' = bigtable σ ->
    ingest en w r σ
      (Return (http_Error (cors w) "Failed to save image to GCS"
                 StatusInternalServerError)) σ'
| ingest_index_fails file n σ' :
    let id := drawn_id σ in
    let p := post_of r (media_link σ BUCKET_NAME id) in
    hasFilteredWord (FormValue r "message") = false ->
    FormFile r "image" = Ok file ->
    (forall k, verdict σ (gcs_stages BUCKET_NAME id file) k = None) ->
    is_Some (gcs σ !! BUCKET_NAME) ->
    lookup_object σ' BUCKET_NAME id = Some (public_object file) ->
    (n < 2)%nat ->
    calls σ' = calls σ ++ gcs_stages BUCKET_NAME id file
                       ++ take (S n) (index_calls id p) ->
    es σ' = es σ -> bigtable σ' = bigtable σ ->
    ingest en w r σ
      (Return (http_Error (cors w) "Failed to save post to ElasticSearch"
                 StatusInternalServerError)) σ'
| ingest_mirror_panics file n e σ' :
    let id := drawn_id σ in
    let p := post_of r (media_link σ BUCKET_NAME id) in
    en = true ->
    hasFilteredWord (FormValue r "message") = false ->
    FormFile r "image" = Ok file ->
    (forall k, verdict σ (gcs_stages BUCKET_NAME id file) k = None) ->
    is_Some (gcs σ !! BUCKET_NAME) ->
    lookup_object σ' BUCKET_NAME id = Some (public_object file) ->
    es σ' = index_put (es σ) POST_INDEX id p ->
    (n < 2)%nat ->
    calls σ' = calls σ ++ gcs_stages BUCKET_NAME id file ++ index_calls id p
                       ++ take (S n) (mirror_calls id p (now σ)) ->
    bigtable σ' = bigtable σ ->
    ingest en w r σ (Panic e) σ'
| ingest_done file σ' :
    let id := drawn_id σ in
    let p := post_of r (media_link σ BUCKET_NAME id) in
    hasFilteredWord (FormValue r "message") = false ->
    FormFile r "image" = Ok file ->
    (forall k, verdict σ (gcs_stages BUCKET_NAME id file) k = None) ->
    is_Some (gcs σ !! BUCKET_NAME) ->
    lookup_object σ' BUCKET_NAME id = Some (public_object file) ->
    es σ' = index_put (es σ) POST_INDEX id p ->
    calls σ' = calls σ ++ gcs_stages BUCKET_NAME id file ++ index_calls id p
                       ++ (if en then mirror_calls id p (now σ) else []) ->
    (en = false -> bigtable σ' = bigtable σ) ->
    ingest en w r σ (Return (cors w)) σ'.

(** The requests issued between the worlds [σ] and [σ']. *)
Definition new_calls (σ σ' : World) : list Call :=
  drop (length (calls σ)) (calls σ').

(** The request [r] with the form value [key] replaced by [value]. *)
Definition with_form (r : Request) (key value : string) : Request :=
  {| Form := <[key := [value]]> (Form r);
     Files := Files r;
     URL_Query := URL_Query r |}.

(** What [handlePost_with] makes of the form value [key] when
    [strconv.ParseFloat] reports an error for it: a malformed value
    counts as [0], and the run is the run of the request that says "0";
    a number out of range counts as the infinity of its sign, and the run
    is the run of the request that says "Inf" or "-Inf". *)
Definition parse_error_tolerated (en : bool) (w : ResponseWriter)
    (r : Request) (σ : World) (key : string) : Prop :=
  match strconv.ParseFloat (FormValue r key) with
  | (f, Some strconv.ErrSyntax) =>
      f = S754_zero false /\
      handlePost_with en w r σ = handlePost_with en w (with_form r key "0") σ
  | (f, Some strconv.ErrRange) =>
      exists neg : bool,
        f = S754_infinity neg /\
        handlePost_with en w r σ =
        handlePost_with en w
          (with_form r key (if neg then "-Inf" else "Inf")) σ
  | (_, None) => True
  end.

(** What [Each] makes of one hit: the zero post for a hit without a
    source, nothing for a source that does not decode. *)
Definition decode_hit (h : SearchHit) : option Post :=
  match hit_Source h with
  | None => Some zeroPost
  | Some src => json_Unmarshal src
  end.

(** A hit whose source does not deserialize into a [Post]. *)
Definition malformed (h : SearchHit) : Prop :=
  exists src, hit_Source h = Some src /\ json_Unmarshal src = None.

(** A hit that decodes to a post the filter matches. *)
Definition spam_hit (h : SearchHit) : Prop :=
  exists p, decode_hit h = Some p /\ hasFilteredWord (Message p) = true.

(** The posts the filter lets through. *)
Definition clean (items : list Post) : list Post :=
  filter (fun p => hasFilteredWord (Message p) = false) items.

(** The query [readFromES] and [handleSearch] send. *)
Definition geo_query (lat lon : float64) (ran : string) : GeoDistanceQuery :=
  {| q_field := "location"; q_distance := ran; q_lat := lat; q_lon := lon |}.

(** The requests [readFromES] issues. *)
Definition search_calls (q : GeoDistanceQuery) : list Call :=
  [ ElasticNewClient ES_URL; SearchDo POST_INDEX q ].

(** Modelled from the spec: [USER_INDEX] is a constant of another file
    of the package, not of [service/main.go].  The spec (6) only says
    that provisioning also ensures a user-account collection; the name of
    that index is a parameter here. *)
Variable USER_INDEX : string.

(** [createIndexIfNotExist] *)
Definition createIndexIfNotExist : Boot unit :=
  must* _ := admin_NewClient ES_URL in
  must* exists_ := IndexExists_Do POST_INDEX in
  boot_bind
    (if negb exists_
     then must* _ := CreateIndex_Do POST_INDEX (Some POST_MAPPING) in
          boot_ret tt
     else boot_ret tt)
    (fun _ =>
       must* exists_ := IndexExists_Do USER_INDEX in
       if negb exists_
       then must* _ := CreateIndex_Do USER_INDEX None in boot_ret tt
       else boot_ret tt).

(** The requests issued between two states of the cluster. *)
Definition new_admin_calls (c c' : Cluster) : list AdminCall :=
  drop (length (admin_calls c)) (admin_calls c').

(** What [handleSearch] makes of the query parameter [key] when
    [strconv.ParseFloat] reports an error for it: as in [handlePost], a
    malformed value counts as "0" and a number out of range as "Inf" or
    "-Inf". *)
Definition search_error_tolerated (w : ResponseWriter) (r : Request)
    (σ : World) (key : string) : Prop :=
  match strconv.ParseFloat (Values_Get (URL_Query r) key) with
  | (f, Some strconv.ErrSyntax) =>
      handleSearch w r σ = handleSearch w (with_query r key "0") σ
  | (f, Some strconv.ErrRange) =>
      exists neg : bool,
        f = S754_infinity neg /\
        handleSearch w r σ =
        handleSearch w (with_query r key (if neg then "-Inf" else "Inf")) σ
  | (_, None) => True
  end.

Definition is_bigtable_call (c : Call) : bool :=
  match c with
  | BigtableNewClient _ _ | TableApply _ _ _ => true
  | _ => false
  end.

(** ** Properties of the store adapters *)

Lemma lookup_doc_put e σ index id p :
  es σ = index_put e index id p -> lookup_doc σ index id = Some p.
Proof.
  unfold lookup_doc, index_put. intros ->.
  rewrite lookup_insert_eq. apply lookup_insert_eq.
Qed.

Ltac earlier_stages :=
  let k := fresh "k" in
  intros k; intros;
  repeat (destruct k as [|k]; [cbn; rewrite ?app_nil_r; assumption|]);
  try lia; try reflexivity.

Ltac stage_fails n :=
  exists n; cbn; rewrite <- ?app_assoc, ?app_nil_r; cbn;
  repeat split; auto; try lia; try congruence; try earlier_stages.

Ltac earlier_encoded_stages :=
  let k := fresh "k" in
  intros k; intros;
  repeat (destruct k as [|k];
          [cbn -[answer]; rewrite ?app_nil_r; assumption|]);
  try lia; try reflexivity.

Ltac encoded_stage_fails n :=
  exists n; cbn -[answer]; rewrite <- ?app_assoc, ?app_nil_r; cbn -[answer];
  repeat split; auto; try lia; try congruence; try earlier_encoded_stages.

(** [saveToGCS] issues its six requests in order and stops at the first
    one that fails. *)
Lemma saveToGCS_run r b o σ :
  let cs := gcs_stages b o r in
  match saveToGCS r b o σ with
  | (Return (Ok attrs), σ') =>
      calls σ' = calls σ ++ cs /\
      (forall n, verdict σ cs n = None) /\
      is_Some (gcs σ !! b) /\
      lookup_object σ' b o = Some (public_object r) /\
      attrs = {| Bucket := b; Name := o; MediaLink := media_link σ b o;
                 ACL := [(AllUsers, RoleReader)] |} /\
      es σ' = es σ /\ bigtable σ' = bigtable σ /\
      stdout σ' = stdout σ ++
                  ["Image is saved to GCS: " +:+ media_link σ b o +:+ nl] /\
      same_oracles σ σ'
  | (Return (Err e), σ') =>
      exists n, (n < 6)%nat /\
        calls σ' = calls σ ++ take (S n) cs /\
        (forall k, (k < n)%nat -> verdict σ cs k = None) /\
        (verdict σ cs n = Some e \/
         (n = 1%nat /\ verdict σ cs n = None /\ gcs σ !! b = None /\
          e = ErrBucketNotExist)) /\
        ((n <= 3)%nat -> gcs σ' = gcs σ) /\
        (gcs σ !! b = None -> (n <= 1)%nat) /\
        es σ' = es σ /\ bigtable σ' = bigtable σ /\ stdout σ' = stdout σ /\
        same_oracles σ σ'
  | (Panic _, _) => False
  end.
Proof.
  destruct σ as [g e bt cs out n rf ml se uu nw].
  unfold saveToGCS, storage_NewClient, Bucket_Attrs, io_Copy, Writer_Close,
    ACL_Set, Object_Attrs, Object_NewWriter, bind, call, ret, gets, Printf,
    verdict, lookup_object, store_object, same_oracles.
  cbn.
  destruct (rf cs StorageNewClient) eqn:E0; cbn.
  { stage_fails 0%nat. }
  destruct (rf (cs ++ [StorageNewClient]) (BucketAttrs b)) eqn:E1; cbn.
  { stage_fails 1%nat. }
  destruct (g !! b) as [objs|] eqn:Hb; cbn.
  2:{ stage_fails 1%nat. }
  rewrite <- ?app_assoc; cbn.
  destruct (rf _ (WriterWrite b o r)) eqn:E2; cbn.
  { stage_fails 2%nat. }
  rewrite ?Hb; cbn. rewrite <- ?app_assoc; cbn.
  destruct (rf _ (WriterClose b o)) eqn:E3; cbn.
  { stage_fails 3%nat. }
  rewrite ?Hb; cbn. rewrite <- ?app_assoc; cbn.
  destruct (rf _ (ACLSet b o _ _)) eqn:E4; cbn.
  { stage_fails 4%nat. }
  rewrite ?lookup_insert_eq; cbn. rewrite <- ?app_assoc; cbn.
  destruct (rf _ (ObjectAttrsGet b o)) eqn:E5; cbn.
  { stage_fails 5%nat. }
  rewrite ?lookup_insert_eq; cbn.
  repeat split; eauto; [earlier_stages|].
  by rewrite !lookup_insert_eq.
Qed.

(** [saveToES] issues its two requests in order; the document is in the
    index exactly when both were accepted. *)
Lemma saveToES_run p id σ :
  let cs := index_calls id p in
  match saveToES p id σ with
  | (Return None, σ') =>
      calls σ' = calls σ ++ cs /\
      (forall n, verdict σ cs n = None) /\
      es σ' = index_put (es σ) POST_INDEX id p /\
      gcs σ' = gcs σ /\ bigtable σ' = bigtable σ /\
      stdout σ' = stdout σ ++
                  ["Post is saved to index: " +:+ Message p +:+ nl] /\
      same_oracles σ σ'
  | (Return (Some e), σ') =>
      exists n, (n < 2)%nat /\
        calls σ' = calls σ ++ take (S n) cs /\
        (forall k, (k < n)%nat -> verdict σ cs k = None) /\
        verdict σ cs n = Some e /\
        es σ' = es σ /\ gcs σ' = gcs σ /\ bigtable σ' = bigtable σ /\
        stdout σ' = stdout σ /\ same_oracles σ σ'
  | (Panic _, _) => False
  end.
Proof.
  destruct σ as [g e bt cs out n rf ml se uu nw].
  unfold saveToES, elastic_NewClient, Index_Do, bind, call, ret, Printf,
    verdict, same_oracles, index_put.
  cbn -[answer].
  destruct (answer rf cs (ElasticNewClient ES_URL)) eqn:E0; cbn -[answer].
  { encoded_stage_fails 0%nat. }
  rewrite <- ?app_assoc; cbn -[answer].
  destruct (answer rf _ (IndexDo _ _ _ _ _)) eqn:E1; cbn -[answer].
  { encoded_stage_fails 1%nat. }
  rewrite <- ?app_assoc; cbn -[answer].
  repeat split; eauto. earlier_encoded_stages.
Qed.

(** [saveToBigTable] returns when both requests were accepted and panics
    with the error of the first one that was not; a panic prints nothing
    and leaves the three stores as they were. *)
Lemma saveToBigTable_run p id σ :
  let cs := mirror_calls id p (now σ) in
  match saveToBigTable p id σ with
  | (Return _, σ') =>
      calls σ' = calls σ ++ cs /\
      (forall n, verdict σ cs n = None) /\
      (exists cells,
         match bigtable σ' !! "post" with
         | Some rows => rows !! id
         | None => None
         end = Some (cells ++ mirror_cells p (now σ))) /\
      es σ' = es σ /\ gcs σ' = gcs σ /\
      stdout σ' = stdout σ ++
                  ["Post is saved to BigTable: " +:+ Message p +:+ nl] /\
      same_oracles σ σ'
  | (Panic e, σ') =>
      exists n, (n < 2)%nat /\
        calls σ' = calls σ ++ take (S n) cs /\
        (forall k, (k < n)%nat -> verdict σ cs k = None) /\
        verdict σ cs n = Some e /\
        es σ' = es σ /\ gcs σ' = gcs σ /\ bigtable σ' = bigtable σ /\
        stdout σ' = stdout σ /\ same_oracles σ σ'
  end.
Proof.
  destruct σ as [g e bt cs out n rf ml se uu nw].
  unfold saveToBigTable, bigtable_NewClient, Table_Apply, bind, call, ret,
    gets, panic, Printf, verdict, same_oracles, mirror_calls.
  cbn.
  destruct (rf cs (BigtableNewClient _ _)) eqn:E0; cbn.
  { stage_fails 0%nat. }
  rewrite <- ?app_assoc; cbn.
  destruct (rf _ (TableApply _ _ _)) eqn:E1; cbn.
  { stage_fails 1%nat. }
  rewrite <- ?app_assoc; cbn.
  repeat split; eauto; [earlier_stages|].
  eexists. rewrite lookup_insert_eq. apply lookup_insert_eq.
Qed.

Lemma lookup_object_gcs σ σ' b o :
  gcs σ' = gcs σ -> lookup_object σ' b o = lookup_object σ b o.
Proof. unfold lookup_object. by intros ->. Qed.

Arguments saveToGCS : simpl never.
Arguments saveToES : simpl never.
Arguments saveToBigTable : simpl never.
Arguments http_Error : simpl never.

(** Every run of [handlePost_with] is one of the cases of [ingest]. *)
Lemma handlePost_with_ingest en w r σ :
  ingest en w r σ (fst (handlePost_with en w r σ))
    (snd (handlePost_with en w r σ)).
Proof.
  unfold handlePost_with, bind, Printf, uuid_New, ret.
  destruct (hasFilteredWord (FormValue r "message")) eqn:Hf; cbn.
  { by apply ingest_spam. }
  destruct (FormFile r "image") as [file|err] eqn:Hfile; cbn.
  2:{ by eapply ingest_no_image. }
  match goal with
  | |- context [saveToGCS ?f ?b ?i ?s] =>
      pose proof (saveToGCS_run f b i s) as HG;
      destruct (saveToGCS f b i s) as [[[attrs|e]|e] σ2]
  end; cbn in *; [| |done].
  2:{ destruct HG as (n & Hn & Hc & _ & _ & _ & _ & He & Hb & _).
      by eapply ingest_asset_fails. }
  destruct HG as (Hc & Hv & Hbk & Hobj & -> & He & Hb & Hout & Hor).
  cbn.
  match goal with
  | |- context [saveToES ?p ?i ?s] =>
      pose proof (saveToES_run p i s) as HE;
      destruct (saveToES p i s) as [[[e|]|e] σ3]
  end; cbn in *; [| |done].
  { destruct HE as (n & Hn & Hc' & _ & _ & He' & Hg' & Hb' & _).
    eapply ingest_index_fails with (n := n); eauto; cbn.
    - erewrite lookup_object_gcs; [exact Hobj | cbn; congruence].
    - by rewrite Hc', Hc, <- app_assoc.
    - congruence.
    - congruence. }
  destruct HE as (Hc' & _ & He' & Hg' & Hb' & _ & Hor').
  destruct en; cbn.
  2:{ eapply ingest_done; eauto; cbn.
      - erewrite lookup_object_gcs; [exact Hobj | cbn; congruence].
      - by rewrite He', He.
      - by rewrite Hc', Hc, <- app_assoc.
      - intros _. congruence. }
  assert (Hnow : now σ3 = now σ).
  { destruct Hor as (_&_&_&_&?), Hor' as (_&_&_&_&?). cbn in *. congruence. }
  match goal with
  | |- context [saveToBigTable ?p ?i ?s] =>
      pose proof (saveToBigTable_run p i s) as HB;
      destruct (saveToBigTable p i s) as [[[]|e] σ4]
  end; cbn in *.
  - destruct HB as (Hc'' & _ & _ & He'' & Hg'' & _).
    eapply ingest_done; eauto; cbn.
    + erewrite lookup_object_gcs; [exact Hobj | cbn; congruence].
    + by rewrite He'', He', He.
    + by rewrite Hc'', Hc', Hc, <- !app_assoc, Hnow.
    + done.
  - destruct HB as (n & Hn & Hc'' & _ & _ & He'' & Hg'' & Hb'' & _).
    eapply ingest_mirror_panics with (n := n); eauto; cbn.
    + erewrite lookup_object_gcs; [exact Hobj | cbn; congruence].
    + by rewrite He'', He', He.
    + by rewrite Hc'', Hc', Hc, <- !app_assoc, Hnow.
    + congruence.
Qed.

Lemma new_calls_app σ σ' cs :
  calls σ' = calls σ ++ cs -> new_calls σ σ' = cs.
Proof. unfold new_calls. intros ->. by rewrite drop_app_length. Qed.

Lemma new_calls_none σ σ' : calls σ' = calls σ -> new_calls σ σ' = [].
Proof. intros H. apply new_calls_app. by rewrite app_nil_r. Qed.

Lemma status_http_Error w msg code :
  status w = None -> status (http_Error w msg code) = Some code.
Proof. intros H. unfold http_Error, Write, WriteHeader. cbn. by rewrite H. Qed.

Lemma append_cancel_l (s a b : string) : s +:+ a = s +:+ b -> a = b.
Proof.
  induction s as [|c s IH]; cbn; [done|].
  intros H. injection H as H. by apply IH.
Qed.

Lemma append_fixpoint (s t : string) : s +:+ t = s -> t = "".
Proof.
  induction s as [|c s IH]; cbn; [done|].
  intros H. injection H as H. by apply IH.
Qed.

Lemma Return_inj {A} (a b : A) : Return a = Return b -> a = b.
Proof. by intros [= ->]. Qed.

Lemma body_http_Error w msg code :
  body (http_Error w msg code) = body w +:+ msg +:+ nl.
Proof.
  unfold http_Error, Write, WriteHeader, Header_Set, Header_Del. cbn.
  destruct (status w); reflexivity.
Qed.

(** Two answers of [http.Error] on one response differ unless the
    messages agree. *)
Lemma http_Error_msg w m c m' c' :
  http_Error w m c = http_Error w m' c' -> m = m'.
Proof.
  intros H. apply (f_equal body) in H. rewrite !body_http_Error in H.
  apply append_cancel_l in H.
  revert m' H. induction m as [|x m IH]; intros [|y m']; cbn; intros H;
    try done.
  - injection H as _ H. by destruct m'.
  - injection H as _ H. by destruct m.
  - injection H as -> H. f_equal. by apply IH.
Qed.

Lemma http_Error_changes w m c : http_Error w m c <> w.
Proof.
  intros H. apply (f_equal body) in H. rewrite body_http_Error in H.
  apply append_fixpoint in H. by destruct m.
Qed.

(** The calls of a run in sequence: the verdicts on the later ones are
    taken in the world the earlier ones leave. *)
Lemma verdict_app_l σ cs cs' k :
  (k < length cs)%nat -> verdict σ (cs ++ cs') k = verdict σ cs k.
Proof.
  intros Hk. unfold verdict.
  rewrite lookup_app_l by done. by rewrite take_app_le by lia.
Qed.

Lemma verdict_app_r σ σ' cs cs' n :
  calls σ' = calls σ ++ cs -> refuses σ' = refuses σ ->
  verdict σ' cs' n = verdict σ (cs ++ cs') (length cs + n).
Proof.
  intros Hc Hr. unfold verdict.
  rewrite lookup_app_r by lia.
  replace (length cs + n - length cs)%nat with n by lia.
  rewrite take_app_add. by rewrite Hc, Hr, <- app_assoc.
Qed.

(** A run of [handlePost_with] whose image has been uploaded: what the
    two calls of [saveToES] decide. *)
Lemma handlePost_with_steps en w r σ file :
  let id := drawn_id σ in
  let p := post_of r (media_link σ BUCKET_NAME id) in
  let cs := gcs_stages BUCKET_NAME id file ++ index_calls id p in
  let run := handlePost_with en w r σ in
  hasFilteredWord (FormValue r "message") = false ->
  FormFile r "image" = Ok file ->
  is_Some (gcs σ !! BUCKET_NAME) ->
  (forall k, (k < 6)%nat -> verdict σ cs k = None) ->
  lookup_object (snd run) BUCKET_NAME id = Some (public_object file) /\
  ((exists n e, (n = 6 \/ n = 7)%nat /\
      (forall k, (k < n)%nat -> verdict σ cs k = None) /\
      verdict σ cs n = Some e /\
      fst run = Return (http_Error (cors w)
                          "Failed to save post to ElasticSearch"
                          StatusInternalServerError) /\
      new_calls σ (snd run) = take (S n) cs /\
      es (snd run) = es σ /\ bigtable (snd run) = bigtable σ)
   \/
   ((forall k, verdict σ cs k = None) /\
    es (snd run) = index_put (es σ) POST_INDEX id p /\
    take 8 (new_calls σ (snd run)) = cs /\
    (forall w', fst run = Return w' -> w' = cors w) /\
    (forall e, fst run = Panic e ->
       en = true /\ exists h c, refuses σ h c = Some e) /\
    (en = false -> fst run = Return (cors w) /\ new_calls σ (snd run) = cs))).
Proof.
  intros id p cs run Hf Hfile Hbk Hup. subst run cs p id.
  unfold handlePost_with, bind, Printf, uuid_New, ret.
  rewrite Hf, Hfile. cbn.
  match goal with
  | |- context [saveToGCS ?f ?b ?i ?s] =>
      pose proof (saveToGCS_run f b i s) as HG;
      destruct (saveToGCS f b i s) as [[[attrs|e]|e] σ2]
  end; cbn in HG; [| |done].
  2:{ exfalso. destruct HG as (n & Hn & _ & _ & [Hv|(-> & _ & Hno & _)] & _).
      - specialize (Hup n Hn). rewrite verdict_app_l in Hup by (cbn; lia).
        unfold verdict, drawn_id in Hup, Hv. cbn in Hup, Hv. congruence.
      - rewrite Hno in Hbk. by destruct Hbk. }
  destruct HG as (Hc & Hv & _ & Hobj & -> & He & Hb & Hout & Hor).
  cbn.
  match goal with
  | |- context [saveToES ?p ?i ?s] =>
      pose proof (saveToES_run p i s) as HE;
      pose proof (fun n => verdict_app_r σ s
                    (gcs_stages BUCKET_NAME (drawn_id σ) file)
                    (index_calls i p) n Hc (proj1 Hor)) as HV;
      destruct (saveToES p i s) as [[[e|]|e] σ3]
  end; cbn in HE; [| |done].
  { destruct HE as (n & Hn & Hc' & Hk & Hve & He' & Hg' & Hb' & _).
    split.
    { cbn. erewrite lookup_object_gcs; [exact Hobj | cbn; congruence]. }
    left. exists (6 + n)%nat, e. split; [lia|].
    split; [|split; [|split; [|split; [|split]]]].
    - intros k Hlt. destruct (decide (k < 6)%nat) as [?|?]; [by apply Hup|].
      replace k with (length (gcs_stages BUCKET_NAME (drawn_id σ) file)
                      + (k - 6))%nat by (cbn; lia).
      rewrite <- HV. apply Hk. lia.
    - rewrite <- Hve. symmetry. apply HV.
    - reflexivity.
    - erewrite new_calls_app
        by (cbn; rewrite Hc', Hc, <- ?app_assoc; reflexivity).
      destruct n as [|[|n]]; [reflexivity|reflexivity|lia].
    - cbn. congruence.
    - cbn. congruence. }
  destruct HE as (Hc' & Hv' & He' & Hg' & Hb' & _ & Hor').
  assert (Hall : forall k,
            verdict σ (gcs_stages BUCKET_NAME (drawn_id σ) file ++
                       index_calls (drawn_id σ)
                         (post_of r (media_link σ BUCKET_NAME (drawn_id σ))))
              k = None).
  { intros k. destruct (decide (k < 6)%nat) as [?|?]; [by apply Hup|].
    replace k with (length (gcs_stages BUCKET_NAME (drawn_id σ) file)
                    + (k - 6))%nat by (cbn; lia).
    rewrite <- HV. apply Hv'. }
  destruct en; cbn.
  2:{ split.
      { erewrite lookup_object_gcs; [exact Hobj | cbn; congruence]. }
      right. split; [exact Hall|].
      assert (Hnew : new_calls σ
                (with_stdout σ3
                   (stdout σ3 ++
                    ["Saved one post to ElasticSearch: " +:+
                     FormValue r "message" +:+ nl])) =
              gcs_stages BUCKET_NAME (drawn_id σ) file ++
              index_calls (drawn_id σ)
                (post_of r (media_link σ BUCKET_NAME (drawn_id σ)))).
      { apply new_calls_app. cbn. by rewrite Hc', Hc, <- app_assoc. }
      split; [cbn; by rewrite He', He|].
      split; [by rewrite Hnew|].
      split; [by intros w' [= <-]|].
      split; [by intros e [=]|].
      by intros _. }
  match goal with
  | |- context [saveToBigTable ?p ?i ?s] =>
      pose proof (saveToBigTable_run p i s) as HB;
      destruct (saveToBigTable p i s) as [[[]|e] σ4]
  end; cbn in HB |- *.
  - destruct HB as (Hc'' & _ & _ & He'' & Hg'' & _).
    split.
    { erewrite lookup_object_gcs; [exact Hobj | cbn; congruence]. }
    right. split; [exact Hall|].
    split; [by rewrite He'', He', He|].
    split.
    { erewrite new_calls_app
        by (cbn; rewrite Hc'', Hc', Hc, <- ?app_assoc; reflexivity).
      reflexivity. }
    split; [by intros w' [= <-]|].
    split; [by intros e [=]|].
    intros [=].
  - destruct HB as (n & Hn & Hc'' & _ & Hve & He'' & Hg'' & Hb'' & _).
    split.
    { erewrite lookup_object_gcs; [exact Hobj | cbn; congruence]. }
    right. split; [exact Hall|].
    split; [by rewrite He'', He', He|].
    split.
    { erewrite new_calls_app
        by (cbn; rewrite Hc'', Hc', Hc, <- ?app_assoc; reflexivity).
      reflexivity. }
    split; [by intros w' [=]|].
    split; [|intros [=]].
    intros e' [= <-]. split; [done|].
    unfold verdict in Hve.
    destruct Hor as (Hr & _), Hor' as (Hr' & _). cbn in Hr, Hr'.
    destruct n as [|[|n]]; [| |lia]; cbn in Hve;
      rewrite Hr', Hr in Hve; eauto.
Qed.

Lemma answer_unencodable rf h c e :
  encoding_error c = Some e -> answer rf h c <> None.
Proof. unfold answer. intros ->. by destruct (rf h c). Qed.

Lemma answer_encodable rf h c :
  encoding_error c = None -> answer rf h c = rf h c.
Proof. unfold answer. by intros ->. Qed.

(** The verdict on the index request of a run. *)
Lemma verdict_index σ b o file id p :
  verdict σ (gcs_stages b o file ++ index_calls id p) 7 =
  answer (refuses σ)
    (calls σ ++ gcs_stages b o file ++ [ElasticNewClient ES_URL])
    (IndexDo POST_INDEX POST_TYPE id p "wait_for").
Proof. reflexivity. Qed.

(** Once the image is uploaded and the client created, the index request
    is issued; the document is stored when the request goes through. *)
Lemma handlePost_with_indexed en w r σ file :
  let id := drawn_id σ in
  let p := post_of r (media_link σ BUCKET_NAME id) in
  let cs := gcs_stages BUCKET_NAME id file ++ index_calls id p in
  let run := handlePost_with en w r σ in
  hasFilteredWord (FormValue r "message") = false ->
  FormFile r "image" = Ok file ->
  is_Some (gcs σ !! BUCKET_NAME) ->
  (forall k, (k < 7)%nat -> verdict σ cs k = None) ->
  IndexDo POST_INDEX POST_TYPE id p "wait_for" ∈ new_calls σ (snd run) /\
  lookup_object (snd run) BUCKET_NAME id = Some (public_object file) /\
  (verdict σ cs 7 = None ->
   lookup_doc (snd run) POST_INDEX id = Some p /\
   (en = false -> fst run = Return (cors w))).
Proof.
  intros id p cs run Hf Hfile Hbk Hup. subst run cs p id.
  destruct (handlePost_with_steps en w r σ file Hf Hfile Hbk)
    as (Hobj & [(n & e & Hn & _ & Hv & _ & Hnew & _)|
                (Hall & He & Hnew & _ & _ & Hdone)]).
  { intros k Hk. apply Hup. lia. }
  - destruct Hn as [-> | ->].
    { rewrite Hup in Hv by lia. discriminate Hv. }
    split; [|split; [exact Hobj|]].
    + rewrite Hnew. cbn. repeat constructor.
    + intros Hv'. rewrite Hv' in Hv. discriminate Hv.
  - split; [|split; [exact Hobj|]].
    + rewrite <- (take_drop 8 (new_calls _ _)), Hnew. cbn.
      repeat constructor.
    + intros _. split; [by eapply lookup_doc_put|].
      intros Hen. exact (proj1 (Hdone Hen)).
Qed.

(** A post the client cannot encode is never indexed: whatever else
    happens, the run ends with an error answer, and when the image has
    been uploaded the answer is the failure of the index write. *)
Lemma unencodable_post_rejected en w r σ e :
  let id := drawn_id σ in
  let p := post_of r (media_link σ BUCKET_NAME id) in
  let run := handlePost_with en w r σ in
  encoding_error (IndexDo POST_INDEX POST_TYPE id p "wait_for") = Some e ->
  es (snd run) = es σ /\
  (exists msg code, fst run = Return (http_Error (cors w) msg code)) /\
  forall file,
    hasFilteredWord (FormValue r "message") = false ->
    FormFile r "image" = Ok file ->
    is_Some (gcs σ !! BUCKET_NAME) ->
    (forall k, verdict σ (gcs_stages BUCKET_NAME id file) k = None) ->
    fst run = Return (http_Error (cors w)
                        "Failed to save post to ElasticSearch"
                        StatusInternalServerError) /\
    lookup_object (snd run) BUCKET_NAME id = Some (public_object file).
Proof.
  intros id p run Henc. subst run p id.
  assert (Hsteps : forall file,
            hasFilteredWord (FormValue r "message") = false ->
            FormFile r "image" = Ok file ->
            is_Some (gcs σ !! BUCKET_NAME) ->
            (forall k, verdict σ (gcs_stages BUCKET_NAME (drawn_id σ) file) k
                       = None) ->
            fst (handlePost_with en w r σ)
            = Return (http_Error (cors w)
                        "Failed to save post to ElasticSearch"
                        StatusInternalServerError) /\
            lookup_object (snd (handlePost_with en w r σ)) BUCKET_NAME
              (drawn_id σ) = Some (public_object file) /\
            es (snd (handlePost_with en w r σ)) = es σ).
  { intros file Hf Hfile Hbk Hv.
    destruct (handlePost_with_steps en w r σ file Hf Hfile Hbk)
      as (Hobj & [(n & e' & _ & _ & _ & Hout & _ & He & _)|(Hall & _)]).
    - intros k Hk. rewrite verdict_app_l by (cbn; lia). apply Hv.
    - auto.
    - exfalso. specialize (Hall 7%nat). rewrite verdict_index in Hall.
      by eapply answer_unencodable. }
  split; [|split].
  3:{ intros file Hf Hfile Hbk Hv.
      destruct (Hsteps file Hf Hfile Hbk Hv) as (? & ? & _). auto. }
  all: pose proof (handlePost_with_ingest en w r σ) as Hin.
  all: destruct (handlePost_with en w r σ) as [out σ']; cbn in *.
  all: destruct Hin as [σ' Hf Hc Hg He|err σ' Hf Hfile Hc Hg He
                       |file n σ' Hf Hfile Hn Hc He
                       |file n σ' id0 p Hf Hfile Hv Hbk Hobj Hn Hc He
                       |file n e0 σ' id0 p Hen Hf Hfile Hv Hbk Hobj He Hn Hc
                       |file σ' id0 p Hf Hfile Hv Hbk Hobj He Hc];
    eauto.
  all: destruct (Hsteps file Hf Hfile Hbk Hv) as (Hout & _ & Hes); eauto.
Qed.

(** ** Ingestion *)

(** C1: a request whose message contains a filtered word is answered with
    the 400 "filtered words" error, whatever the setting of
    ENABLE_BIGTABLE; the run issues no request to Cloud Storage,
    ElasticSearch or Bigtable and leaves the three stores as they were. *)
Theorem spam_rejected_before_any_store_call en w r σ :
  hasFilteredWord (FormValue r "message") = true ->
  exists σ',
    handlePost_with en w r σ =
      (Return (http_Error (cors w) MSG_FILTERED StatusBadRequest), σ') /\
    (status w = None ->
     status (http_Error (cors w) MSG_FILTERED StatusBadRequest)
     = Some StatusBadRequest) /\
    new_calls σ σ' = [] /\
    gcs σ' = gcs σ /\ es σ' = es σ /\ bigtable σ' = bigtable σ.
Proof.
  intros Hf. eexists. split.
  { unfold handlePost_with, bind, Printf, ret. rewrite Hf. reflexivity. }
  split; [intros Hw; by apply status_http_Error|].
  split; [by apply new_calls_none|]. auto.
Qed.

Ltac index_member H :=
  unfold gcs_stages, index_calls, mirror_calls in H; cbn in H;
  rewrite ?elem_of_cons, ?elem_of_nil in H;
  repeat (destruct H as [H|H]; try discriminate H; try contradiction).

(** An index request in the trace of a run pins the run down. *)
Lemma ingest_index_call en w r σ out σ' index typ id' body refresh :
  ingest en w r σ out σ' ->
  IndexDo index typ id' body refresh ∈ new_calls σ σ' ->
  let id := drawn_id σ in
  exists file rest,
    FormFile r "image" = Ok file /\
    new_calls σ σ' =
      gcs_stages BUCKET_NAME id file ++
      ElasticNewClient ES_URL ::
      IndexDo index typ id' body refresh :: rest /\
    (forall k, verdict σ (gcs_stages BUCKET_NAME id file) k = None) /\
    lookup_object σ' BUCKET_NAME id = Some (public_object file) /\
    id' = id /\
    body = post_of r (media_link σ BUCKET_NAME id).
Proof.
  intros Hrun Hin. cbn.
  destruct Hrun as [σ' Hf Hc|err σ' Hf Hfile Hc|file n σ' Hf Hfile Hn Hc
                   |file n σ' id p Hf Hfile Hv Hbk Hobj Hn Hc
                   |file n e σ' id p Hen Hf Hfile Hv Hbk Hobj He Hn Hc
                   |file σ' id p Hf Hfile Hv Hbk Hobj He Hc].
  - rewrite (new_calls_none _ _ Hc) in Hin. by apply elem_of_nil in Hin.
  - rewrite (new_calls_none _ _ Hc) in Hin. by apply elem_of_nil in Hin.
  - rewrite (new_calls_app _ _ _ Hc) in Hin.
    do 6 (destruct n as [|n]; [index_member Hin|]). lia.
  - rewrite (new_calls_app _ _ _ Hc) in Hin |- *.
    destruct n as [|[|n]]; [index_member Hin| |lia].
    index_member Hin. injection Hin as -> -> -> -> ->.
    exists file, []. repeat split; auto.
  - rewrite (new_calls_app _ _ _ Hc) in Hin |- *.
    destruct n as [|[|n]]; [| |lia]; index_member Hin.
    all: injection Hin as -> -> -> -> ->;
      eexists file, _; repeat split; eauto.
  - rewrite (new_calls_app _ _ _ Hc) in Hin |- *.
    destruct en; index_member Hin.
    all: injection Hin as -> -> -> -> ->;
      eexists file, _; repeat split; eauto.
Qed.

(** The first request of [saveToES] in the trace of a run: the asset
    write has gone through before it. *)
Lemma ingest_elastic_call en w r σ out σ' url :
  ingest en w r σ out σ' ->
  ElasticNewClient url ∈ new_calls σ σ' ->
  let id := drawn_id σ in
  exists file rest,
    FormFile r "image" = Ok file /\
    new_calls σ σ' =
      gcs_stages BUCKET_NAME id file ++ ElasticNewClient url :: rest /\
    (forall k, verdict σ (gcs_stages BUCKET_NAME id file) k = None) /\
    lookup_object σ' BUCKET_NAME id = Some (public_object file).
Proof.
  intros Hrun Hin. cbn.
  destruct Hrun as [σ' Hf Hc|err σ' Hf Hfile Hc|file n σ' Hf Hfile Hn Hc
                   |file n σ' id p Hf Hfile Hv Hbk Hobj Hn Hc
                   |file n e σ' id p Hen Hf Hfile Hv Hbk Hobj He Hn Hc
                   |file σ' id p Hf Hfile Hv Hbk Hobj He Hc].
  - rewrite (new_calls_none _ _ Hc) in Hin. by apply elem_of_nil in Hin.
  - rewrite (new_calls_none _ _ Hc) in Hin. by apply elem_of_nil in Hin.
  - rewrite (new_calls_app _ _ _ Hc) in Hin.
    do 6 (destruct n as [|n]; [index_member Hin|]). lia.
  - rewrite (new_calls_app _ _ _ Hc) in Hin |- *.
    destruct n as [|[|n]]; [| |lia]; index_member Hin.
    all: injection Hin as ->; eexists file, _; repeat split; eauto.
  - rewrite (new_calls_app _ _ _ Hc) in Hin |- *.
    destruct n as [|[|n]]; [| |lia]; index_member Hin.
    all: injection Hin as ->; eexists file, _; repeat split; eauto.
  - rewrite (new_calls_app _ _ _ Hc) in Hin |- *.
    destruct en; index_member Hin.
    all: injection Hin as ->; eexists file, _; repeat split; eauto.
Qed.

(** C2: in every run of handlePost, saveToES is entered, and an index
    request issued, only after the six requests of the asset write, all
    of them accepted, with the object stored and public, and the document
    carries the URL the asset store returned; when the asset write fails,
    the answer is the 500 "Failed to save image to GCS", no index request
    is issued and the index is unchanged. *)
Theorem index_only_after_asset en w r σ :
  let run := handlePost_with en w r σ in
  let σ' := snd run in
  let id := drawn_id σ in
  (forall url,
     ElasticNewClient url ∈ new_calls σ σ' ->
     exists file rest,
       FormFile r "image" = Ok file /\
       new_calls σ σ' =
         gcs_stages BUCKET_NAME id file ++ ElasticNewClient url :: rest /\
       (forall k, verdict σ (gcs_stages BUCKET_NAME id file) k = None) /\
       lookup_object σ' BUCKET_NAME id = Some (public_object file)) /\
  (forall index typ id' body refresh,
     IndexDo index typ id' body refresh ∈ new_calls σ σ' ->
     exists file rest,
       FormFile r "image" = Ok file /\
       new_calls σ σ' =
         gcs_stages BUCKET_NAME id file ++
         ElasticNewClient ES_URL ::
         IndexDo index typ id' body refresh :: rest /\
       (forall k, verdict σ (gcs_stages BUCKET_NAME id file) k = None) /\
       lookup_object σ' BUCKET_NAME id = Some (public_object file) /\
       id' = id /\
       body = post_of r (media_link σ BUCKET_NAME id)) /\
  (forall file,
     hasFilteredWord (FormValue r "message") = false ->
     FormFile r "image" = Ok file ->
     (exists k, verdict σ (gcs_stages BUCKET_NAME id file) k <> None) \/
     gcs σ !! BUCKET_NAME = None ->
     fst run = Return (http_Error (cors w) "Failed to save image to GCS"
                         StatusInternalServerError) /\
     es σ' = es σ /\
     (forall url, ElasticNewClient url ∉ new_calls σ σ') /\
     forall index typ id' body refresh,
       IndexDo index typ id' body refresh ∉ new_calls σ σ').
Proof.
  intros run σ' id. subst run σ' id.
  pose proof (handlePost_with_ingest en w r σ) as Hrun.
  destruct (handlePost_with en w r σ) as [out σ']. cbn in *.
  split; [|split].
  - intros url Hin. exact (ingest_elastic_call _ _ _ _ _ _ _ Hrun Hin).
  - intros index typ id' body refresh Hin.
    exact (ingest_index_call _ _ _ _ _ _ _ _ _ _ _ Hrun Hin).
  - intros file Hf Hfile Hfail.
    assert (Hno : ~ ((forall k, verdict σ (gcs_stages BUCKET_NAME
                                              (drawn_id σ) file) k = None)
                     /\ is_Some (gcs σ !! BUCKET_NAME))).
    { intros [Hv [x Hx]].
      destruct Hfail as [[k Hk]|Hk]; [by apply Hk|congruence]. }
    destruct Hrun as [σ' Hf' Hc|err σ' Hf' Hfile' Hc
                     |file' n σ' Hf' Hfile' Hn Hc He
                     |file' n σ' id p Hf' Hfile' Hv Hbk Hobj Hn Hc
                     |file' n e σ' id p Hen Hf' Hfile' Hv Hbk Hobj He Hn Hc
                     |file' σ' id p Hf' Hfile' Hv Hbk Hobj He Hc];
      try congruence;
      try (exfalso; apply Hno; replace file with file' by congruence;
           by split).
    split; [done|]. split; [done|].
    rewrite (new_calls_app _ _ _ Hc).
    split; [intros url Hin|intros index typ id' body refresh Hin].
    all: do 6 (destruct n as [|n]; [index_member Hin|]); lia.
Qed.


Lemma lookup_doc_es σ σ' i d :
  es σ' = es σ -> lookup_doc σ' i d = lookup_doc σ i d.
Proof. unfold lookup_doc. by intros ->. Qed.

(** C9: in a successful ingestion the identifier drawn from uuid.New()
    names the object of the asset write and is the id of the index
    request (and the row key of the mirror write); afterwards the object
    and the document are stored under that one key, the document holding
    the URL of the object. *)
Theorem one_id_links_asset_and_document en w r σ w' σ' :
  status w = None ->
  handlePost_with en w r σ = (Return w', σ') ->
  status w' = None ->
  let id := drawn_id σ in
  exists file p,
    FormFile r "image" = Ok file /\
    new_calls σ σ' =
      gcs_stages BUCKET_NAME id file ++ index_calls id p ++
      (if en then mirror_calls id p (now σ) else []) /\
    lookup_object σ' BUCKET_NAME id = Some (public_object file) /\
    lookup_doc σ' POST_INDEX id = Some p /\
    Url p = media_link σ BUCKET_NAME id.
Proof.
  intros Hw Hrun Hw'.
  pose proof (handlePost_with_ingest en w r σ) as Hin.
  rewrite Hrun in Hin. cbn in Hin.
  inversion Hin as [σ0 Hf Hc|err σ0 Hf Hfile Hc|file n σ0 Hf Hfile Hn Hc
                   |file n σ0 Hf Hfile Hv Hbk Hobj Hn Hc
                   |
                   |file σ0 id0 p0 Hf Hfile Hv Hbk Hobj He Hc]; subst;
    try (rewrite status_http_Error in Hw' by done; discriminate Hw').
  exists file, (post_of r (media_link σ BUCKET_NAME (drawn_id σ))).
  repeat split; auto.
  - by apply new_calls_app.
  - by eapply lookup_doc_put.
Qed.



(** C5, as the code has it: with the secondary store enabled, the mirror
    write is attempted only once steps 1-6 have succeeded, and then a
    request Bigtable refuses makes handlePost panic with that error:
    nothing is printed for it and no answer is produced.  The asset store
    and the index are as the run without the mirror leaves them. *)
Theorem mirror_failure_panics w r σ :
  status w = None ->
  match handlePost_with false w r σ with
  | (Return w1, σ1) =>
      match status w1 with
      | Some _ => handlePost_with true w r σ = (Return w1, σ1)
      | None =>
          let id := drawn_id σ in
          let p := post_of r (media_link σ BUCKET_NAME id) in
          let cs := mirror_calls id p (now σ) in
          match handlePost_with true w r σ with
          | (Return w2, σ2) =>
              w2 = w1 /\ calls σ2 = calls σ1 ++ cs /\
              (forall n, verdict σ1 cs n = None) /\
              gcs σ2 = gcs σ1 /\ es σ2 = es σ1
          | (Panic e, σ2) =>
              exists n, (n < 2)%nat /\
                calls σ2 = calls σ1 ++ take (S n) cs /\
                verdict σ1 cs n = Some e /\
                stdout σ2 = stdout σ1 /\
                gcs σ2 = gcs σ1 /\ es σ2 = es σ1 /\
                bigtable σ2 = bigtable σ1
          end
      end
  | (Panic _, _) => False
  end.
Proof.
  intros Hw.
  unfold handlePost_with, bind, Printf, uuid_New, ret.
  destruct (hasFilteredWord (FormValue r "message")) eqn:Hf; cbn.
  { by rewrite status_http_Error by exact Hw. }
  destruct (FormFile r "image") as [file|err] eqn:Hfile; cbn.
  2:{ by rewrite status_http_Error by exact Hw. }
  match goal with
  | |- context [saveToGCS ?f ?b ?i ?s] =>
      pose proof (saveToGCS_run f b i s) as HG;
      destruct (saveToGCS f b i s) as [[[attrs|e]|e] σ2]
  end; cbn in *; [| |done].
  2:{ by rewrite status_http_Error by exact Hw. }
  destruct HG as (Hc & Hv & Hbk & Hobj & -> & He & Hb & Hout & Hor).
  cbn.
  match goal with
  | |- context [saveToES ?p ?i ?s] =>
      pose proof (saveToES_run p i s) as HE;
      destruct (saveToES p i s) as [[[e|]|e] σ3]
  end; cbn in *; [| |done].
  { by rewrite status_http_Error by exact Hw. }
  destruct HE as (Hc' & _ & He' & Hg' & Hb' & _ & Hor').
  rewrite Hw.
  assert (Hnow : now σ3 = now σ).
  { destruct Hor as (_&_&_&_&?), Hor' as (_&_&_&_&?). cbn in *. congruence. }
  match goal with
  | |- context [saveToBigTable ?p ?i ?s] =>
      pose proof (saveToBigTable_run p i s) as HB;
      destruct (saveToBigTable p i s) as [[[]|e] σ4]
  end; cbn in *; rewrite Hnow in HB.
  - destruct HB as (Hc'' & Hv'' & _ & He'' & Hg'' & _). auto.
  - destruct HB as (n & Hn & Hc'' & _ & Hv'' & He'' & Hg'' & Hb'' & Ho'' & _).
    exists n. auto 10.
Qed.

(** ** Numeric input *)

(** [strconv.ParseFloat] on the inputs of the library's own test table. *)
Example ParseFloat_integer :
  strconv.ParseFloat "91" = (float64_of_Z 91, None).
Proof. reflexivity. Qed.

Example ParseFloat_tenth :
  strconv.ParseFloat "0.1" = (S754_finite false 7205759403792794 (-56), None).
Proof. reflexivity. Qed.

Example ParseFloat_1e23 :
  strconv.ParseFloat "1e23" = (S754_finite false 5960464477539062 24, None).
Proof. reflexivity. Qed.

Example ParseFloat_largest :
  strconv.ParseFloat "1.7976931348623158e308"
  = (S754_finite false 9007199254740991 971, None).
Proof. vm_compute. reflexivity. Qed.

Example ParseFloat_overflow :
  strconv.ParseFloat "1.7976931348623159e308"
  = (S754_infinity false, Some strconv.ErrRange).
Proof. vm_compute. reflexivity. Qed.

Example ParseFloat_smallest :
  strconv.ParseFloat "4.9e-324" = (S754_finite false 1 (-1074), None).
Proof. vm_compute. reflexivity. Qed.

Example ParseFloat_underflow :
  strconv.ParseFloat "2e-324" = (S754_zero false, None).
Proof. vm_compute. reflexivity. Qed.

Example ParseFloat_minus_zero :
  strconv.ParseFloat "-0" = (S754_zero true, None).
Proof. reflexivity. Qed.

Example ParseFloat_hex :
  strconv.ParseFloat "0x_1_2.3_4_5p+1_2" = (float64_of_Z 74565, None).
Proof. reflexivity. Qed.

Example ParseFloat_underscores :
  strconv.ParseFloat "1_23.50_0_0e+1_2" = (float64_of_Z 123500000000000, None).
Proof. reflexivity. Qed.

Example ParseFloat_bad_underscore :
  strconv.ParseFloat "1__23.5e+12" = (S754_zero false, Some strconv.ErrSyntax).
Proof. reflexivity. Qed.

Example ParseFloat_infinity :
  strconv.ParseFloat "-iNfInItY" = (S754_infinity true, None).
Proof. reflexivity. Qed.

Example ParseFloat_nan : strconv.ParseFloat "NaN" = (S754_nan, None).
Proof. reflexivity. Qed.

Example ParseFloat_signed_nan :
  strconv.ParseFloat "+nan" = (S754_zero false, Some strconv.ErrSyntax).
Proof. reflexivity. Qed.

Example ParseFloat_trailing :
  strconv.ParseFloat "37.7 " = (S754_zero false, Some strconv.ErrSyntax).
Proof. reflexivity. Qed.

Lemma ParseFloat_syntax s f :
  strconv.ParseFloat s = (f, Some strconv.ErrSyntax) -> f = S754_zero false.
Proof.
  unfold strconv.ParseFloat.
  destruct (strconv.special s) as [[f0 n]|].
  - destruct (n =? String.length s)%nat; intros H; by injection H.
  - destruct (strconv.readFloat s) as [l|]; [|intros H; by injection H].
    destruct (strconv.literal_value l); intros H; by injection H.
Qed.

Lemma ParseFloat_range s f :
  strconv.ParseFloat s = (f, Some strconv.ErrRange) ->
  exists neg, f = S754_infinity neg.
Proof.
  unfold strconv.ParseFloat.
  destruct (strconv.special s) as [[f0 n]|].
  - destruct (n =? String.length s)%nat; intros H; by injection H.
  - destruct (strconv.readFloat s) as [l|]; [|intros H; by injection H].
    destruct (strconv.literal_value l) as [| neg | |] eqn:E; intros H;
      try by injection H.
    injection H as <-. by exists neg.
Qed.

Lemma FormValue_with_form r key v : FormValue (with_form r key v) key = v.
Proof. unfold FormValue, Values_Get. cbn. by rewrite lookup_insert_eq. Qed.

Lemma FormValue_with_form_ne r key v k :
  key <> k -> FormValue (with_form r key v) k = FormValue r k.
Proof.
  intros H. unfold FormValue, Values_Get. cbn. by rewrite lookup_insert_ne.
Qed.

(** [handlePost_with] reads the request through the four form values and
    the image only, and the numbers through their parsed value only. *)
Lemma handlePost_with_ext en w r r' σ :
  post_of r "" = post_of r' "" ->
  FormFile r "image" = FormFile r' "image" ->
  handlePost_with en w r σ = handlePost_with en w r' σ.
Proof.
  unfold post_of. intros H Hfile. injection H as Hu Hm Hlat Hlon.
  unfold handlePost_with. by rewrite Hu, Hm, Hlat, Hlon, Hfile.
Qed.

Lemma parse_error_tolerated_at en w r σ key :
  key = "lat" \/ key = "lon" -> parse_error_tolerated en w r σ key.
Proof.
  intros Hkey. unfold parse_error_tolerated.
  destruct (strconv.ParseFloat (FormValue r key)) as [f [[]|]] eqn:E; [| |done].
  - pose proof (ParseFloat_syntax _ _ E) as ->. split; [done|].
    apply handlePost_with_ext; [|done].
    unfold post_of.
    destruct Hkey as [-> | ->];
      rewrite !FormValue_with_form, !FormValue_with_form_ne by done;
      by rewrite E.
  - destruct (ParseFloat_range _ _ E) as [neg ->]. exists neg. split; [done|].
    apply handlePost_with_ext; [|done].
    unfold post_of.
    destruct Hkey as [-> | ->];
      rewrite !FormValue_with_form, !FormValue_with_form_ne by done;
      rewrite E; by destruct neg.
Qed.

(** C3, as the code has it: the error of [strconv.ParseFloat] is
    discarded for lat and for lon, and what follows depends on the error.
    A value that is not well formed, the empty string included, is
    treated as 0.0 and the request is not rejected for it: the run is the
    run of the request with "0" in its place, the value 0 is encoded, and
    with the image uploaded and the two requests of the index write
    accepted the document is stored and the answer is the empty 200.  A
    well-formed number beyond the range of float64, for which ParseFloat
    reports an error as well, is not treated as 0.0 but as +Inf or -Inf,
    which the client cannot encode: nothing is indexed, the run ends with
    an error answer, and when the image has been uploaded the answer is
    the 500 of the index write, the image staying stored. *)
Theorem parse_errors_are_tolerated en w r σ :
  let run := handlePost_with en w r σ in
  let id := drawn_id σ in
  let p := post_of r (media_link σ BUCKET_NAME id) in
  strconv.ParseFloat "" = (S754_zero false, Some strconv.ErrSyntax) /\
  parse_error_tolerated en w r σ "lat" /\
  parse_error_tolerated en w r σ "lon" /\
  (forall key,
     snd (strconv.ParseFloat (FormValue r key)) = Some strconv.ErrSyntax ->
     fst (strconv.ParseFloat (FormValue r key)) = S754_zero false /\
     json_unsupported (fst (strconv.ParseFloat (FormValue r key))) = None) /\
  (forall file,
     let cs := gcs_stages BUCKET_NAME id file ++ index_calls id p in
     hasFilteredWord (FormValue r "message") = false ->
     FormFile r "image" = Ok file ->
     is_Some (gcs σ !! BUCKET_NAME) ->
     (forall k, (k < 7)%nat -> verdict σ cs k = None) ->
     refuses σ
       (calls σ ++ gcs_stages BUCKET_NAME id file ++ [ElasticNewClient ES_URL])
       (IndexDo POST_INDEX POST_TYPE id p "wait_for") = None ->
     json_unsupported (fst (strconv.ParseFloat (FormValue r "lat"))) = None ->
     json_unsupported (fst (strconv.ParseFloat (FormValue r "lon"))) = None ->
     lookup_doc (snd run) POST_INDEX id = Some p /\
     (en = false -> fst run = Return (cors w))) /\
  (forall key,
     key = "lat" \/ key = "lon" ->
     snd (strconv.ParseFloat (FormValue r key)) = Some strconv.ErrRange ->
     (exists neg,
        fst (strconv.ParseFloat (FormValue r key)) = S754_infinity neg) /\
     es (snd run) = es σ /\
     (exists msg code, fst run = Return (http_Error (cors w) msg code)) /\
     forall file,
       hasFilteredWord (FormValue r "message") = false ->
       FormFile r "image" = Ok file ->
       is_Some (gcs σ !! BUCKET_NAME) ->
       (forall k, verdict σ (gcs_stages BUCKET_NAME id file) k = None) ->
       fst run = Return (http_Error (cors w)
                           "Failed to save post to ElasticSearch"
                           StatusInternalServerError) /\
       lookup_object (snd run) BUCKET_NAME id = Some (public_object file)).
Proof.
  intros run id p. subst run id p.
  split; [reflexivity|].
  split; [apply parse_error_tolerated_at; auto|].
  split; [apply parse_error_tolerated_at; auto|].
  split; [|split].
  - intros key Hs.
    destruct (strconv.ParseFloat (FormValue r key)) as [f err] eqn:E.
    cbn in Hs. subst err.
    pose proof (ParseFloat_syntax _ _ E) as ->. by split.
  - intros file cs Hf Hfile Hbk Hup Hes Hlat Hlon. subst cs.
    destruct (handlePost_with_indexed en w r σ file Hf Hfile Hbk Hup)
      as (_ & _ & Hdoc).
    apply Hdoc. rewrite verdict_index, answer_encodable; [exact Hes|].
    cbn. by rewrite Hlat.
  - intros key Hkey Hr.
    destruct (strconv.ParseFloat (FormValue r key)) as [f err] eqn:E.
    cbn in Hr. subst err.
    destruct (ParseFloat_range _ _ E) as [neg ->].
    split; [by exists neg|].
    assert (Henc : exists e,
              encoding_error
                (IndexDo POST_INDEX POST_TYPE (drawn_id σ)
                   (post_of r (media_link σ BUCKET_NAME (drawn_id σ)))
                   "wait_for") = Some e).
    { cbn. destruct Hkey as [-> | ->]; rewrite E; cbn.
      - destruct neg; eauto.
      - destruct (json_unsupported _); [eauto|]. destruct neg; eauto. }
    destruct Henc as [e Henc].
    apply (unencodable_post_rejected en w r σ e Henc).
Qed.

(** ** The asset store *)

(** C7: a successful saveToGCS has issued, in this order and once each,
    the client creation, the bucket check, the write, the close, the
    public-read ACL and the attribute read, every one accepted, on a
    bucket that exists, and returns the URL of the stored, public object.
    A stage that fails ends the call with an error: the later stages are
    not attempted, nothing is retried, a missing bucket is not created,
    and no object appears unless the close was accepted. *)
Theorem asset_put_stages r b o σ :
  let cs := gcs_stages b o r in
  match saveToGCS r b o σ with
  | (Return (Ok attrs), σ') =>
      new_calls σ σ' = cs /\
      (forall n, verdict σ cs n = None) /\
      is_Some (gcs σ !! b) /\
      lookup_object σ' b o = Some (public_object r) /\
      MediaLink attrs = media_link σ b o
  | (Return (Err e), σ') =>
      exists n, (n < 6)%nat /\
        new_calls σ σ' = take (S n) cs /\
        (forall k, (k < n)%nat -> verdict σ cs k = None) /\
        (verdict σ cs n = Some e \/
         (n = 1%nat /\ verdict σ cs n = None /\ gcs σ !! b = None /\
          e = ErrBucketNotExist)) /\
        ((n <= 3)%nat -> gcs σ' = gcs σ) /\
        (gcs σ !! b = None -> (n <= 1)%nat)
  | (Panic _, _) => False
  end /\
  ((exists n, verdict σ cs n <> None) \/ gcs σ !! b = None ->
   exists e σ', saveToGCS r b o σ = (Return (Err e), σ')).
Proof.
  intros cs. subst cs.
  pose proof (saveToGCS_run r b o σ) as H. cbn in H.
  destruct (saveToGCS r b o σ) as [[[attrs|e]|e] σ']; [| |done].
  - destruct H as (Hc & Hv & Hbk & Hobj & -> & _).
    split.
    + repeat split; auto. by apply new_calls_app.
    + intros [[n Hn]|Hn]; [by destruct Hn|].
      destruct Hbk as [x Hx]. congruence.
  - destruct H as (n & Hn & Hc & Hearly & Hfail & Hg & Hmiss & _).
    split; [|eauto].
    exists n. repeat split; auto. by apply new_calls_app.
Qed.

(** ** Search *)

Lemma collect_clean acc items : collect acc items = acc ++ clean items.
Proof.
  revert acc. induction items as [|p items IH]; intros acc.
  - cbn. by rewrite app_nil_r.
  - cbn [collect]. unfold clean in *.
    destruct (hasFilteredWord (Message p)) eqn:E; cbn [negb].
    + rewrite filter_cons_False by congruence. apply IH.
    + rewrite filter_cons_True by done. rewrite IH. by rewrite <- app_assoc.
Qed.

Lemma Each_omap hits : Each hits = omap decode_hit hits.
Proof.
  induction hits as [|h hits IH]; [done|].
  cbn. unfold decode_hit at 1.
  destruct (hit_Source h) as [src|]; [|by rewrite IH].
  destruct (json_Unmarshal src); by rewrite IH.
Qed.

(** [readFromES] issues its two requests in order and returns the items
    of [Each] that pass the filter; it writes to no store. *)
Lemma readFromES_run lat lon ran σ :
  let q := geo_query lat lon ran in
  let cs := search_calls q in
  match readFromES lat lon ran σ with
  | (Return (Ok posts), σ') =>
      calls σ' = calls σ ++ cs /\
      (forall n, verdict σ cs n = None) /\
      posts = clean (Each (Hits (search σ POST_INDEX q))) /\
      es σ' = es σ /\ gcs σ' = gcs σ /\ bigtable σ' = bigtable σ
  | (Return (Err e), σ') =>
      exists n, (n < 2)%nat /\
        calls σ' = calls σ ++ take (S n) cs /\
        (forall k, (k < n)%nat -> verdict σ cs k = None) /\
        verdict σ cs n = Some e /\
        es σ' = es σ /\ gcs σ' = gcs σ /\ bigtable σ' = bigtable σ
  | (Panic _, _) => False
  end.
Proof.
  destruct σ as [g e bt cs out n rf ml se uu nw].
  unfold readFromES, elastic_NewClient, Search_Do, bind, call, ret, gets,
    Printf, verdict, search_calls, geo_query.
  cbn -[answer].
  destruct (answer rf cs (ElasticNewClient ES_URL)) eqn:E0; cbn -[answer].
  { encoded_stage_fails 0%nat. }
  rewrite <- ?app_assoc; cbn -[answer].
  destruct (answer rf _ (SearchDo _ _)) eqn:E1; cbn -[answer].
  { encoded_stage_fails 1%nat. }
  rewrite <- ?app_assoc; cbn -[answer].
  repeat split; eauto; [earlier_encoded_stages|].
  apply (collect_clean []).
Qed.

Lemma readFromES_accepted lat lon ran σ :
  let q := geo_query lat lon ran in
  (forall n, verdict σ (search_calls q) n = None) ->
  exists σ',
    readFromES lat lon ran σ =
    (Return (Ok (clean (Each (Hits (search σ POST_INDEX q))))), σ').
Proof.
  intros q Hv. subst q.
  pose proof (readFromES_run lat lon ran σ) as H.
  destruct (readFromES lat lon ran σ) as [[[posts|e]|e] σ']; cbn in H;
    [| |done].
  - destruct H as (_ & _ & -> & _). by eexists.
  - destruct H as (n & _ & _ & _ & Hn & _). by rewrite Hv in Hn.
Qed.

Arguments readFromES : simpl never.

(** C4: readFromES returns, in the order of the hits, exactly the decoded
    hits whose message the filter does not match: a decoded hit is in the
    result if and only if hasFilteredWord is false on its message.  The
    others are left out without a trace in the result, and the index is
    not written, so they stay stored. *)
Theorem search_refilters_hits lat lon ran σ :
  let q := geo_query lat lon ran in
  let hits := Hits (search σ POST_INDEX q) in
  match readFromES lat lon ran σ with
  | (Return (Ok posts), σ') =>
      posts = clean (omap decode_hit hits) /\
      (forall h p, h ∈ hits -> decode_hit h = Some p ->
                   (p ∈ posts <-> hasFilteredWord (Message p) = false)) /\
      es σ' = es σ
  | (Return (Err e), σ') => es σ' = es σ
  | (Panic _, _) => False
  end /\
  ((forall n, verdict σ (search_calls q) n = None) ->
   exists posts σ', readFromES lat lon ran σ = (Return (Ok posts), σ')).
Proof.
  intros q hits. subst q hits. split.
  - pose proof (readFromES_run lat lon ran σ) as H.
    destruct (readFromES lat lon ran σ) as [[[posts|e]|e] σ']; cbn in H;
      [| |done].
    + destruct H as (_ & _ & -> & He & _). rewrite Each_omap.
      split; [done|]. split; [|done].
      intros h p Hh Hp. unfold clean. rewrite list_elem_of_filter.
      split; [by intros [? _]|]. intros Hok. split; [done|].
      apply list_elem_of_omap. eauto.
    + by destruct H as (n & _ & _ & _ & _ & He & _).
  - intros Hv. destruct (readFromES_accepted lat lon ran σ Hv) as [σ' H].
    eauto.
Qed.

Lemma malformed_decode h : malformed h -> decode_hit h = None.
Proof. intros (src & Hsrc & Hdec). unfold decode_hit. by rewrite Hsrc. Qed.

Lemma clean_all_dropped hits :
  Forall (fun h => malformed h \/ spam_hit h) hits ->
  clean (omap decode_hit hits) = [].
Proof.
  induction 1 as [|h hits' Hh _ IH]; [done|].
  cbn [omap list_omap].
  destruct Hh as [Hh|(p & Hp & Hspam)].
  - by rewrite (malformed_decode h Hh).
  - rewrite Hp. unfold clean in *.
    by rewrite filter_cons_False by congruence.
Qed.

(** C10: a hit whose source does not deserialize into a Post yields no
    item; with the two requests accepted readFromES returns a nil error
    whatever the hits are, and when every hit is malformed or filtered
    the list returned is empty. *)
Theorem malformed_hits_are_skipped lat lon ran σ :
  let q := geo_query lat lon ran in
  let hits := Hits (search σ POST_INDEX q) in
  (forall n, verdict σ (search_calls q) n = None) ->
  exists σ',
    readFromES lat lon ran σ =
      (Return (Ok (clean (omap decode_hit hits))), σ') /\
    (forall h, malformed h -> decode_hit h = None) /\
    (forall l1 h l2, malformed h -> Each (l1 ++ h :: l2) = Each (l1 ++ l2)) /\
    (Forall (fun h => malformed h \/ spam_hit h) hits ->
     clean (omap decode_hit hits) = []).
Proof.
  intros q hits Hv. subst q hits.
  destruct (readFromES_accepted lat lon ran σ Hv) as [σ' H].
  rewrite Each_omap in H. exists σ'. split; [done|].
  split; [apply malformed_decode|]. split.
  - intros l1 h l2 Hh. rewrite !Each_omap, !omap_app. cbn.
    by rewrite (malformed_decode h Hh).
  - apply clean_all_dropped.
Qed.

(** C6, as the code has it: with no range parameter, or an empty one, the
    query carries the radius "200km"; with a non-empty value v it carries
    v followed by "km", whatever v is.  The value is the number of
    kilometres: "0" gives "0km", and a value that already ends in the
    unit, such as "0km", gives "0kmkm". *)
Theorem search_radius w r σ :
  let v := Values_Get (URL_Query r) "range" in
  let ran := if decide (v = "") then "200km" else v +:+ "km" in
  let q := geo_query
             (fst (strconv.ParseFloat (Values_Get (URL_Query r) "lat")))
             (fst (strconv.ParseFloat (Values_Get (URL_Query r) "lon")))
             ran in
  (URL_Query r !! "range" = None -> v = "") /\
  new_calls σ (snd (handleSearch w r σ)) =
    ElasticNewClient ES_URL ::
    match refuses σ (calls σ) (ElasticNewClient ES_URL) with
    | None => [SearchDo POST_INDEX q]
    | Some _ => []
    end.
Proof.
  intros v ran q. subst v ran q. split.
  { unfold Values_Get. by intros ->. }
  unfold handleSearch, bind, Printf, ret.
  cbn.
  match goal with
  | |- context [readFromES ?a ?b ?c ?s] =>
      pose proof (readFromES_run a b c s) as H;
      destruct (readFromES a b c s) as [[[posts|e]|e] σ']
  end; cbn in *; [| |done].
  - destruct H as (Hc & Hv & _).
    pose proof (Hv 0%nat) as H0. unfold verdict in H0. cbn in H0.
    rewrite app_nil_r in H0. rewrite H0.
    destruct (json_Marshal posts); cbn; apply new_calls_app; cbn; rewrite Hc;
      unfold search_calls, geo_query; repeat f_equal;
      by destruct (String.eqb_spec (Values_Get (URL_Query r) "range") "");
         destruct (decide (Values_Get (URL_Query r) "range" = "")).
  - destruct H as (n & Hn & Hc & Hearly & Hfail & _).
    apply new_calls_app; cbn; rewrite Hc.
    destruct n as [|[|n]]; [| |lia].
    + unfold verdict in Hfail. cbn in Hfail. rewrite app_nil_r in Hfail.
      by rewrite Hfail.
    + pose proof (Hearly 0%nat ltac:(lia)) as H0.
      unfold verdict in H0. cbn in H0. rewrite app_nil_r in H0. rewrite H0.
      unfold search_calls, geo_query; cbn; repeat f_equal;
      by destruct (String.eqb_spec (Values_Get (URL_Query r) "range") "");
         destruct (decide (Values_Get (URL_Query r) "range" = "")).
Qed.

(** ** Provisioning *)

Ltac boot_unfold :=
  unfold createIndexIfNotExist, admin_NewClient, IndexExists_Do,
    CreateIndex_Do, admin_call, boot_bind, boot_ret, boot_panic,
    new_admin_calls; cbn.

Ltac boot_steps :=
  cbn;
  repeat (first [ rewrite lookup_insert_eq
                | rewrite lookup_insert_ne by congruence
                | match goal with
                  | H : forall h a, _ = None |- _ => rewrite H
                  | H : _ !! _ = _ |- _ => rewrite H
                  end ]; cbn).

Ltac boot_trace :=
  cbn; rewrite <- ?app_assoc, ?drop_app_length; cbn.

(** X1: when ElasticSearch refuses nothing, createIndexIfNotExist returns
    with the post index and the user index in place; an index that was
    there before keeps the body it had, a post index that was missing is
    created with the geo_point mapping, and no other index is touched. *)
Theorem provisioning_creates_missing_indices c :
  (forall h a, admin_refuses c h a = None) ->
  exists c',
    createIndexIfNotExist c = (Return tt, c') /\
    is_Some (indices c' !! POST_INDEX) /\
    is_Some (indices c' !! USER_INDEX) /\
    (forall i b, indices c !! i = Some b -> indices c' !! i = Some b) /\
    (indices c !! POST_INDEX = None ->
     indices c' !! POST_INDEX = Some (Some POST_MAPPING)) /\
    (forall i, i <> POST_INDEX -> i <> USER_INDEX ->
               indices c' !! i = indices c !! i).
Proof.
  destruct c as [ix cs rf]. cbn. intros Hrf. boot_unfold.
  destruct (ix !! POST_INDEX) as [bp|] eqn:Hp;
    destruct (ix !! USER_INDEX) as [bu|] eqn:Hu;
    destruct (decide (USER_INDEX = POST_INDEX)) as [Heq|Hne];
    try congruence; try rewrite Heq in *; boot_steps;
    (eexists; split; [reflexivity|]); boot_steps;
    repeat split; eauto; try done;
    intros; rewrite ?lookup_insert_ne; congruence.
Qed.

Ltac boot_oracle rf :=
  repeat match goal with
         | |- context [rf ?h ?a] => destruct (rf h a) eqn:?; boot_steps
         end.

Ltac refused_last :=
  match goal with
  | E : ?rf (?cs ++ ?pre) ?a = Some ?e |- _ =>
      exists pre, a; split; [reflexivity | exact E]
  | E : ?rf ?cs ?a = Some ?e |- _ =>
      exists [], a; split; [reflexivity | by rewrite app_nil_r]
  end.

(** X2: createIndexIfNotExist changes nothing when both indices exist:
    whatever ElasticSearch answers, it issues no create request and
    leaves every index as it is, so a second run after a successful one
    is a no-op. *)
Theorem provisioning_is_idempotent c :
  is_Some (indices c !! POST_INDEX) ->
  is_Some (indices c !! USER_INDEX) ->
  let c' := snd (createIndexIfNotExist c) in
  indices c' = indices c /\
  forall i b, CreateIndexDo i b ∉ new_admin_calls c c'.
Proof.
  destruct c as [ix cs rf]. cbn. intros [bp Hp] [bu Hu]. boot_unfold.
  boot_steps; boot_oracle rf; (split; [reflexivity|]);
    intros i b Hin; rewrite <- ?app_assoc, ?drop_app_length in Hin;
    cbn in Hin; rewrite ?elem_of_cons, ?elem_of_nil in Hin;
    repeat (destruct Hin as [Hin|Hin]; try discriminate Hin; try done).
Qed.

(** X3: createIndexIfNotExist never removes or alters an index that
    exists, and when it panics the error is the one ElasticSearch gave to
    the last request issued: no request follows the refused one. *)
Theorem provisioning_panics_on_refusal c :
  let run := createIndexIfNotExist c in
  (forall i b, indices c !! i = Some b -> indices (snd run) !! i = Some b) /\
  (forall e, fst run = Panic e ->
     exists pre a,
       admin_calls (snd run) = admin_calls c ++ pre ++ [a] /\
       admin_refuses c (admin_calls c ++ pre) a = Some e).
Proof.
  destruct c as [ix cs rf]. cbn. boot_unfold.
  destruct (ix !! POST_INDEX) as [bp|] eqn:Hp;
    destruct (ix !! USER_INDEX) as [bu|] eqn:Hu;
    destruct (decide (USER_INDEX = POST_INDEX)) as [Heq|Hne];
    try congruence; try rewrite Heq in *; boot_steps; boot_oracle rf.
  all: rewrite <- ?app_assoc in *; cbn in *.
  all: split; [intros; rewrite ?lookup_insert_ne; congruence|].
  all: intros e' He'; try discriminate He'; injection He' as <-; refused_last.
Qed.

(** ** Further properties of ingestion *)

(** X4: a post without an image part is answered 400 "Image is not
    available" after the filter has passed: an identifier has been drawn
    by then, but no request is issued and no store changes. *)
Theorem missing_image_rejected en w r σ err :
  hasFilteredWord (FormValue r "message") = false ->
  FormFile r "image" = Err err ->
  exists σ',
    handlePost_with en w r σ =
      (Return (http_Error (cors w) "Image is not available" StatusBadRequest),
       σ') /\
    new_calls σ σ' = [] /\
    gcs σ' = gcs σ /\ es σ' = es σ /\ bigtable σ' = bigtable σ /\
    uuid_count σ' = S (uuid_count σ) /\
    stdout σ' = stdout σ ++
      ["Received one post request" +:+ nl;
       "Image is not available " +:+ err +:+ "." +:+ nl].
Proof.
  intros Hf Hfile. eexists. split.
  { unfold handlePost_with, bind, Printf, uuid_New, ret.
    rewrite Hf, Hfile. reflexivity. }
  split; [by apply new_calls_none|].
  cbn. rewrite <- app_assoc. auto 10.
Qed.

(** X5: whenever handlePost answers "Failed to save post to
    ElasticSearch", the asset write had gone through and is not undone:
    the object stays stored and public under the drawn identifier, while
    the index and Bigtable are unchanged. *)
Theorem index_failure_leaves_asset en w r σ :
  let run := handlePost_with en w r σ in
  let σ' := snd run in
  let id := drawn_id σ in
  fst run = Return (http_Error (cors w) "Failed to save post to ElasticSearch"
                      StatusInternalServerError) ->
  exists file n,
    FormFile r "image" = Ok file /\
    (n < 2)%nat /\
    new_calls σ σ' =
      gcs_stages BUCKET_NAME id file ++
      take (S n) (index_calls id (post_of r (media_link σ BUCKET_NAME id))) /\
    lookup_object σ' BUCKET_NAME id = Some (public_object file) /\
    es σ' = es σ /\ bigtable σ' = bigtable σ.
Proof.
  intros run σ' id. subst run σ' id.
  pose proof (handlePost_with_ingest en w r σ) as Hrun.
  destruct (handlePost_with en w r σ) as [out σ']. cbn in *.
  intros Hout.
  destruct Hrun; try discriminate Hout;
    try (apply Return_inj in Hout;
         first [ apply http_Error_msg in Hout; cbv in Hout;
                 discriminate Hout
               | exfalso; eapply http_Error_changes; symmetry; eassumption ]).
  do 2 eexists.
  repeat split; try eassumption. by apply new_calls_app.
Qed.

Lemma Header_http_Error w msg code :
  Header (http_Error w msg code) =
  <["X-Content-Type-Options" := "nosniff"]>
    (<["Content-Type" := "text/plain; charset=utf-8"]>
       (delete "Content-Length" (Header w))).
Proof.
  unfold http_Error, Write, WriteHeader, Header_Set, Header_Del. cbn.
  destruct (status w); reflexivity.
Qed.

Lemma error_answer_headers w msg code :
  let w' := http_Error (cors w) msg code in
  Header w' !! "Access-Control-Allow-Origin" = Some "*" /\
  Header w' !! "Access-Control-Allow-Headers"
    = Some "Content-Type,Authorization" /\
  Header w' !! "Content-Type" = Some "text/plain; charset=utf-8" /\
  Header w' !! "X-Content-Type-Options" = Some "nosniff" /\
  body w' = body w +:+ msg +:+ nl.
Proof.
  cbn. rewrite Header_http_Error, body_http_Error. unfold cors, Header_Set.
  cbn. repeat split; by simplify_map_eq.
Qed.

Lemma json_answer_headers w :
  Header (cors w) !! "Access-Control-Allow-Origin" = Some "*" /\
  Header (cors w) !! "Access-Control-Allow-Headers"
    = Some "Content-Type,Authorization" /\
  Header (cors w) !! "Content-Type" = Some "application/json".
Proof. unfold cors, Header_Set. cbn. repeat split; by simplify_map_eq. Qed.

(** X6: every answer of handlePost carries the two CORS headers.  A
    completed post leaves the status and the body as they were (the empty
    200) with the JSON content type; every rejection is an http.Error
    with status 400 or 500, which replaces the content type by
    text/plain, adds nosniff and appends the message and a newline to the
    body.  Only the mirror write can make the handler panic. *)
Theorem handlePost_answers en w r σ :
  match fst (handlePost_with en w r σ) with
  | Return w' =>
      Header w' !! "Access-Control-Allow-Origin" = Some "*" /\
      Header w' !! "Access-Control-Allow-Headers"
        = Some "Content-Type,Authorization" /\
      ((w' = cors w /\ Header w' !! "Content-Type" = Some "application/json")
       \/
       (exists msg code,
          w' = http_Error (cors w) msg code /\
          (code = StatusBadRequest \/ code = StatusInternalServerError) /\
          Header w' !! "Content-Type" = Some "text/plain; charset=utf-8" /\
          Header w' !! "X-Content-Type-Options" = Some "nosniff" /\
          body w' = body w +:+ msg +:+ nl))
  | Panic _ => en = true
  end.
Proof.
  pose proof (handlePost_with_ingest en w r σ) as Hrun.
  destruct (handlePost_with en w r σ) as [out σ']. cbn in *.
  destruct Hrun; try done;
    try (destruct (error_answer_headers w MSG_FILTERED StatusBadRequest)
           as (?&?&?&?&?);
         destruct (error_answer_headers w "Image is not available"
                     StatusBadRequest) as (?&?&?&?&?);
         destruct (error_answer_headers w "Failed to save image to GCS"
                     StatusInternalServerError) as (?&?&?&?&?);
         destruct (error_answer_headers w
                     "Failed to save post to ElasticSearch"
                     StatusInternalServerError) as (?&?&?&?&?);
         split; [done|]; split; [done|]; right;
         eexists _, _; split; [reflexivity|]; auto 10).
  destruct (json_answer_headers w) as (?&?&?). auto.
Qed.

Ltac trace_member H :=
  unfold gcs_stages, index_calls, mirror_calls in H; cbn in H;
  rewrite ?elem_of_cons, ?elem_of_nil in H;
  repeat (destruct H as [->|H]; [reflexivity|]); try contradiction.

(** X7: handlePost as shipped, with ENABLE_BIGTABLE = false, always
    returns an answer (it cannot panic), issues no request to Bigtable
    and leaves Bigtable as it was. *)
Theorem handlePost_never_mirrors w r σ :
  let run := handlePost w r σ in
  (exists w', fst run = Return w') /\
  bigtable (snd run) = bigtable σ /\
  forall c, c ∈ new_calls σ (snd run) -> is_bigtable_call c = false.
Proof.
  intros run. subst run. unfold handlePost, ENABLE_BIGTABLE.
  pose proof (handlePost_with_ingest false w r σ) as Hrun.
  destruct (handlePost_with false w r σ) as [out σ']. cbn in *.
  inversion Hrun as [σ0 Hf Hc|err σ0 Hf Hfile Hc|file n σ0 Hf Hfile Hn Hc
                    |file n σ0 id0 p0 Hf Hfile Hv Hbk Hobj Hn Hc
                    |file n e σ0 id0 p0 Hen
                    |file σ0 id0 p0 Hf Hfile Hv Hbk Hobj He Hc Hb];
    subst; try discriminate Hen.
  - split; [eauto|]. split; [done|]. intros c Hin.
    rewrite (new_calls_none _ _ Hc) in Hin. by apply elem_of_nil in Hin.
  - split; [eauto|]. split; [done|]. intros c Hin.
    rewrite (new_calls_none _ _ Hc) in Hin. by apply elem_of_nil in Hin.
  - split; [eauto|]. split; [done|]. intros c Hin.
    rewrite (new_calls_app _ _ _ Hc) in Hin.
    do 6 (destruct n as [|n]; [trace_member Hin|]). lia.
  - split; [eauto|]. split; [done|]. intros c Hin.
    rewrite (new_calls_app _ _ _ Hc) in Hin.
    destruct n as [|[|n]]; [| |lia]; trace_member Hin.
  - split; [eauto|]. split; [auto|]. intros c Hin.
    rewrite (new_calls_app _ _ _ Hc) in Hin. trace_member Hin.
Qed.

Ltac world_oracle rf :=
  repeat match goal with
         | |- context [rf ?h ?a] =>
             destruct (rf h a) eqn:?; cbn;
             rewrite ?lookup_insert_eq; cbn
         | H : ?g !! ?b = _ |- context [?g !! ?b] => rewrite H; cbn
         end.

(** [saveToGCS] writes at most the object it is given: every other
    object is as before, and no bucket appears or disappears. *)
Lemma saveToGCS_frame r b o σ :
  let σ' := snd (saveToGCS r b o σ) in
  (forall b' o', b' <> b \/ o' <> o ->
                 lookup_object σ' b' o' = lookup_object σ b' o') /\
  (forall b', is_Some (gcs σ' !! b') <-> is_Some (gcs σ !! b')).
Proof.
  destruct σ as [g e bt cs out n rf ml se uu nw].
  unfold saveToGCS, storage_NewClient, Bucket_Attrs, io_Copy, Writer_Close,
    ACL_Set, Object_Attrs, Object_NewWriter, bind, call, ret, gets, Printf,
    lookup_object, store_object.
  cbn.
  destruct (g !! b) as [objs|] eqn:Hb; world_oracle rf; cbn.
  all: split; [intros b' o' Hne|intros b'].
  all: destruct (decide (b' = b)) as [->|Hb'];
       rewrite ?lookup_insert_eq, ?lookup_insert_ne, ?Hb by done;
       try done.
  all: try (destruct Hne as [Hne|Hne]; [done|];
            by rewrite ?lookup_insert_ne by done).
  all: split; eauto.
Qed.

Lemma lookup_doc_put_ne σ σ' i d p i' d' :
  es σ' = index_put (es σ) i d p ->
  i' <> i \/ d' <> d ->
  lookup_doc σ' i' d' = lookup_doc σ i' d'.
Proof.
  unfold lookup_doc, index_put. intros -> Hne.
  destruct (decide (i' = i)) as [->|Hi].
  - destruct Hne as [?|Hd]; [done|].
    rewrite lookup_insert_eq, lookup_insert_ne by done.
    by destruct (es σ !! i).
  - by rewrite lookup_insert_ne.
Qed.

(** The asset store after a run of [handlePost_with] is the one
    [saveToGCS] left, if it was called at all. *)
Lemma handlePost_with_gcs en w r σ :
  gcs (snd (handlePost_with en w r σ)) = gcs σ \/
  exists file σ1,
    gcs σ1 = gcs σ /\
    gcs (snd (handlePost_with en w r σ))
    = gcs (snd (saveToGCS file BUCKET_NAME (drawn_id σ) σ1)).
Proof.
  unfold handlePost_with, bind, Printf, uuid_New, ret.
  destruct (hasFilteredWord (FormValue r "message")) eqn:Hf; cbn; [by left|].
  destruct (FormFile r "image") as [file|err] eqn:Hfile; cbn; [|by left].
  right. exists file. eexists. split; [|].
  2:{ match goal with
      | |- context [saveToGCS ?f ?b ?i ?s] =>
          destruct (saveToGCS f b i s) as [[[attrs|e]|e] σ2] eqn:EG
      end; cbn; [| |unfold drawn_id; by rewrite EG].
      2:{ unfold drawn_id. by rewrite EG. }
      match goal with
      | |- context [saveToES ?p ?i ?s] =>
          pose proof (saveToES_run p i s) as HE;
          destruct (saveToES p i s) as [[[e|]|e] σ3]
      end; cbn in *; [| |done].
      { destruct HE as (n & _ & _ & _ & _ & _ & Hg & _).
        unfold drawn_id. by rewrite EG. }
      destruct HE as (_ & _ & _ & Hg & _).
      destruct en; cbn; [|unfold drawn_id; by rewrite EG].
      match goal with
      | |- context [saveToBigTable ?p ?i ?s] =>
          pose proof (saveToBigTable_run p i s) as HB;
          destruct (saveToBigTable p i s) as [[[]|e] σ4]
      end; cbn in *.
      - destruct HB as (_ & _ & _ & _ & Hg' & _).
        unfold drawn_id. rewrite EG. cbn. congruence.
      - destruct HB as (n & _ & _ & _ & _ & _ & Hg' & _).
        unfold drawn_id. rewrite EG. cbn. congruence. }
  reflexivity.
Qed.

(** A run of [handlePost_with] touches only the object and the document
    named by the identifier it draws. *)
Lemma handlePost_with_frame en w r σ :
  let σ' := snd (handlePost_with en w r σ) in
  let id := drawn_id σ in
  (forall b o, b <> BUCKET_NAME \/ o <> id ->
               lookup_object σ' b o = lookup_object σ b o) /\
  (forall b, is_Some (gcs σ' !! b) <-> is_Some (gcs σ !! b)) /\
  (forall i d, i <> POST_INDEX \/ d <> id ->
               lookup_doc σ' i d = lookup_doc σ i d).
Proof.
  intros σ' id. subst σ' id. split; [|split].
  - intros b o Hne.
    destruct (handlePost_with_gcs en w r σ) as [Hg|(file & σ1 & Hg1 & Hg)].
    + by apply lookup_object_gcs.
    + rewrite (lookup_object_gcs _ _ _ _ Hg).
      destruct (saveToGCS_frame file BUCKET_NAME (drawn_id σ) σ1) as [HF _].
      rewrite HF by done. by apply lookup_object_gcs.
  - intros b.
    destruct (handlePost_with_gcs en w r σ) as [Hg|(file & σ1 & Hg1 & Hg)];
      rewrite Hg; [done|].
    destruct (saveToGCS_frame file BUCKET_NAME (drawn_id σ) σ1) as [_ HF].
    rewrite HF. by rewrite Hg1.
  - intros i d Hne.
    pose proof (handlePost_with_ingest en w r σ) as Hrun.
    destruct (handlePost_with en w r σ) as [out σ']. cbn in *.
    destruct Hrun;
      first [ apply lookup_doc_es; assumption
            | eapply lookup_doc_put_ne; [eassumption|exact Hne] ].
Qed.

(** X8: a run of handlePost reads and writes the stores only under the
    identifier it draws: every other object of the asset store and every
    other document of the index is as before, and no bucket is created
    or removed. *)
Theorem handlePost_touches_only_its_id en w r σ :
  let σ' := snd (handlePost_with en w r σ) in
  let id := drawn_id σ in
  (forall b o, b <> BUCKET_NAME \/ o <> id ->
               lookup_object σ' b o = lookup_object σ b o) /\
  (forall b, is_Some (gcs σ' !! b) <-> is_Some (gcs σ !! b)) /\
  (forall i d, i <> POST_INDEX \/ d <> id ->
               lookup_doc σ' i d = lookup_doc σ i d).
Proof. exact (handlePost_with_frame en w r σ). Qed.

(** X9: two posts accepted one after the other under distinct
    identifiers do not interfere: after the second, both objects and both
    documents are stored, each document with the URL of its own asset. *)
Theorem two_posts_are_both_stored en w1 r1 w2 r2 σ w1' σ1 w2' σ2 :
  status w1 = None -> status w2 = None ->
  handlePost_with en w1 r1 σ = (Return w1', σ1) -> status w1' = None ->
  handlePost_with en w2 r2 σ1 = (Return w2', σ2) -> status w2' = None ->
  drawn_id σ <> drawn_id σ1 ->
  exists file1 file2,
    FormFile r1 "image" = Ok file1 /\ FormFile r2 "image" = Ok file2 /\
    lookup_object σ2 BUCKET_NAME (drawn_id σ) = Some (public_object file1) /\
    lookup_object σ2 BUCKET_NAME (drawn_id σ1) = Some (public_object file2) /\
    lookup_doc σ2 POST_INDEX (drawn_id σ)
      = Some (post_of r1 (media_link σ BUCKET_NAME (drawn_id σ))) /\
    lookup_doc σ2 POST_INDEX (drawn_id σ1)
      = Some (post_of r2 (media_link σ1 BUCKET_NAME (drawn_id σ1))).
Proof.
  intros Hw1 Hw2 Hrun1 Hs1 Hrun2 Hs2 Hid.
  pose proof (handlePost_with_ingest en w1 r1 σ) as H1.
  pose proof (handlePost_with_ingest en w2 r2 σ1) as H2.
  pose proof (handlePost_with_frame en w2 r2 σ1) as (Fo & _ & Fd).
  rewrite Hrun1 in H1. rewrite Hrun2 in H2, Fo, Fd. cbn in *.
  assert (Hdone : forall en w r σ w' σ',
            status w = None -> status w' = None ->
            ingest en w r σ (Return w') σ' ->
            exists file,
              FormFile r "image" = Ok file /\
              lookup_object σ' BUCKET_NAME (drawn_id σ)
                = Some (public_object file) /\
              lookup_doc σ' POST_INDEX (drawn_id σ)
                = Some (post_of r (media_link σ BUCKET_NAME (drawn_id σ)))).
  { clear. intros en w r σ w' σ' Hw Hw' Hin.
    inversion Hin; subst;
      try (rewrite status_http_Error in Hw' by done; discriminate Hw').
    eexists. repeat split; eauto. by eapply lookup_doc_put. }
  destruct (Hdone _ _ _ _ _ _ Hw1 Hs1 H1) as (file1 & Hf1 & Ho1 & Hd1).
  destruct (Hdone _ _ _ _ _ _ Hw2 Hs2 H2) as (file2 & Hf2 & Ho2 & Hd2).
  exists file1, file2. repeat split; auto.
  - rewrite Fo by (right; done). done.
  - rewrite Fd by (right; done). done.
Qed.

(** ** Further properties of search *)

Lemma search_ran v :
  (if negb (String.eqb v "") then v +:+ "km" else DISTANCE)
  = if decide (v = "") then "200km" else v +:+ "km".
Proof.
  destruct (String.eqb_spec v ""); destruct (decide (v = "")); done.
Qed.

Arguments handleSearch : simpl never.

(** [handleSearch] is [readFromES] on the parsed parameters, followed by
    the answer. *)
Lemma handleSearch_unfold w r σ :
  let v := Values_Get (URL_Query r) "range" in
  let ran := if decide (v = "") then "200km" else v +:+ "km" in
  let lat := fst (strconv.ParseFloat (Values_Get (URL_Query r) "lat")) in
  let lon := fst (strconv.ParseFloat (Values_Get (URL_Query r) "lon")) in
  let σ1 := with_stdout σ
              (stdout σ ++ ["Received one request for search" +:+ nl]) in
  handleSearch w r σ =
  match readFromES lat lon ran σ1 with
  | (Return (Err err), σ2) =>
      (Return (http_Error (cors w) "Failed to read post from ElasticSearch"
                 StatusInternalServerError),
       with_stdout σ2
         (stdout σ2 ++ ["Failed to read post from ElasticSearch " +:+ err
                        +:+ "." +:+ nl]))
  | (Return (Ok posts), σ2) =>
      match json_Marshal posts with
      | Err err =>
          (Return (http_Error (cors w) "Failed to parse posts into JSON format"
                     StatusInternalServerError),
           with_stdout σ2
             (stdout σ2 ++ ["Failed to parse posts into JSON format " +:+ err
                            +:+ "." +:+ nl]))
      | Ok js => (Return (Write (cors w) js), σ2)
      end
  | (Panic e, σ2) => (Panic e, σ2)
  end.
Proof.
  cbn. unfold handleSearch, bind, Printf, ret. cbn. rewrite search_ran.
  destruct (readFromES _ _ _ _) as [[[posts|e]|e] σ2]; cbn; try done.
  by destruct (json_Marshal posts).
Qed.

(** X10: handleSearch only reads: it always returns an answer (it cannot
    panic) and leaves the asset store, the index and Bigtable as they
    were. *)
Theorem handleSearch_reads_only w r σ :
  let run := handleSearch w r σ in
  (exists w', fst run = Return w') /\
  gcs (snd run) = gcs σ /\ es (snd run) = es σ /\
  bigtable (snd run) = bigtable σ.
Proof.
  intros run. subst run. rewrite handleSearch_unfold. cbv zeta.
  match goal with
  | |- context [readFromES ?a ?b ?c ?s] =>
      pose proof (readFromES_run a b c s) as H;
      destruct (readFromES a b c s) as [[[posts|e]|e] σ2]
  end; cbn in H; [| |done].
  - destruct H as (_ & _ & _ & He & Hg & Hb).
    destruct (json_Marshal posts); cbn; eauto.
  - destruct H as (n & _ & _ & _ & _ & He & Hg & Hb). cbn. eauto.
Qed.

(** X11: the three answers of handleSearch.  When ElasticSearch accepts
    the client and the search, the answer is the JSON of the hits that
    decode and pass the filter, written with status 200, or the 500
    "Failed to parse posts into JSON format" when marshalling fails; when
    one of the two calls fails, refused by ElasticSearch or, for a query
    that cannot be encoded, by the client, the answer is the 500 "Failed
    to read post from ElasticSearch". *)
Theorem handleSearch_answers w r σ :
  let v := Values_Get (URL_Query r) "range" in
  let ran := if decide (v = "") then "200km" else v +:+ "km" in
  let q := geo_query
             (fst (strconv.ParseFloat (Values_Get (URL_Query r) "lat")))
             (fst (strconv.ParseFloat (Values_Get (URL_Query r) "lon")))
             ran in
  let hits := Hits (search σ POST_INDEX q) in
  ((forall n, verdict σ (search_calls q) n = None) ->
   fst (handleSearch w r σ) =
     Return
       match json_Marshal (clean (omap decode_hit hits)) with
       | Ok js => Write (cors w) js
       | Err _ => http_Error (cors w) "Failed to parse posts into JSON format"
                    StatusInternalServerError
       end) /\
  (forall n e, verdict σ (search_calls q) n = Some e ->
     fst (handleSearch w r σ) =
       Return (http_Error (cors w) "Failed to read post from ElasticSearch"
                 StatusInternalServerError)) /\
  (forall js, status w = None ->
     status (Write (cors w) js) = Some StatusOK /\
     body (Write (cors w) js) = body w +:+ js /\
     Header (Write (cors w) js) !! "Content-Type" = Some "application/json").
Proof.
  intros v ran q hits. subst v ran q hits.
  rewrite handleSearch_unfold. cbv zeta.
  match goal with
  | |- context [readFromES ?a ?b ?c ?s] =>
      pose proof (readFromES_run a b c s) as H;
      destruct (readFromES a b c s) as [[[posts|e]|e] σ2]
  end; cbn in H; [| |done].
  - destruct H as (_ & Hv & -> & _). rewrite Each_omap.
    split; [|split].
    + intros _. cbn. by destruct (json_Marshal _).
    + intros n e Hn. exfalso.
      specialize (Hv n). unfold verdict in *. cbn in *. congruence.
    + intros js Hw. unfold Write, WriteHeader, cors, Header_Set. cbn.
      rewrite Hw. cbn. repeat split. by simplify_map_eq.
  - destruct H as (n & _ & _ & _ & Hn & _).
    split; [|split].
    + intros Hv. exfalso.
      specialize (Hv n). unfold verdict in *. cbn in *. congruence.
    + done.
    + intros js Hw. unfold Write, WriteHeader, cors, Header_Set. cbn.
      rewrite Hw. cbn. repeat split. by simplify_map_eq.
Qed.

Lemma Values_Get_with_query r key v :
  Values_Get (URL_Query (with_query r key v)) key = v.
Proof. unfold Values_Get. cbn. by rewrite lookup_insert_eq. Qed.

Lemma Values_Get_with_query_ne r key v k :
  key <> k ->
  Values_Get (URL_Query (with_query r key v)) k = Values_Get (URL_Query r) k.
Proof. intros H. unfold Values_Get. cbn. by rewrite lookup_insert_ne. Qed.

(** [handleSearch] reads the request through the three query parameters
    only, and lat and lon through their parsed value only. *)
Lemma handleSearch_ext w r r' σ :
  fst (strconv.ParseFloat (Values_Get (URL_Query r) "lat"))
  = fst (strconv.ParseFloat (Values_Get (URL_Query r') "lat")) ->
  fst (strconv.ParseFloat (Values_Get (URL_Query r) "lon"))
  = fst (strconv.ParseFloat (Values_Get (URL_Query r') "lon")) ->
  Values_Get (URL_Query r) "range" = Values_Get (URL_Query r') "range" ->
  handleSearch w r σ = handleSearch w r' σ.
Proof.
  intros Hlat Hlon Hran. unfold handleSearch.
  by rewrite Hlat, Hlon, Hran.
Qed.

Lemma search_error_tolerated_at w r σ key :
  key = "lat" \/ key = "lon" -> search_error_tolerated w r σ key.
Proof.
  intros Hkey. unfold search_error_tolerated.
  destruct (strconv.ParseFloat (Values_Get (URL_Query r) key))
    as [f [[]|]] eqn:E; [| |done].
  - pose proof (ParseFloat_syntax _ _ E) as ->.
    apply handleSearch_ext;
      destruct Hkey as [-> | ->];
      rewrite ?Values_Get_with_query, ?Values_Get_with_query_ne by done;
      try done; by rewrite E.
  - destruct (ParseFloat_range _ _ E) as [neg ->]. exists neg. split; [done|].
    apply handleSearch_ext;
      destruct Hkey as [-> | ->];
      rewrite ?Values_Get_with_query, ?Values_Get_with_query_ne by done;
      try done; rewrite E; by destruct neg.
Qed.

(** X12: handleSearch discards the error of strconv.ParseFloat for lat
    and lon as handlePost does: a search whose lat or lon is missing or
    malformed is the search with "0" in its place, and one whose value is
    out of range the search with "Inf" or "-Inf"; it is never answered
    with a client error for it. *)
Theorem search_parse_errors_are_tolerated w r σ :
  (forall key, URL_Query r !! key = None ->
     strconv.ParseFloat (Values_Get (URL_Query r) key)
     = (S754_zero false, Some strconv.ErrSyntax)) /\
  search_error_tolerated w r σ "lat" /\
  search_error_tolerated w r σ "lon".
Proof.
  split.
  { intros key Hk. unfold Values_Get. by rewrite Hk. }
  split; apply search_error_tolerated_at; auto.
Qed.

Lemma clean_idem items : clean (clean items) = clean items.
Proof.
  unfold clean. induction items as [|p items IH]; [done|].
  destruct (hasFilteredWord (Message p)) eqn:E.
  - by rewrite filter_cons_False by congruence.
  - rewrite filter_cons_True by done.
    rewrite filter_cons_True by done. by rewrite IH.
Qed.

Lemma clean_Forall items :
  Forall (fun p => hasFilteredWord (Message p) = false) (clean items).
Proof.
  unfold clean. apply Forall_forall. intros p Hp.
  by apply list_elem_of_filter in Hp as [? _].
Qed.

Lemma clean_length items : (length (clean items) <= length items)%nat.
Proof. unfold clean. apply length_filter. Qed.

Lemma omap_length {A B} (f : A -> option B) l :
  (length (omap f l) <= length l)%nat.
Proof.
  induction l as [|x l IH]; cbn; [lia|]. destruct (f x); cbn; lia.
Qed.

(** X13: what readFromES returns and asks.  A result comes after exactly
    the client creation and one search; it has no more posts than there
    were hits, every post passes the filter, and filtering it again
    changes nothing.  An error is the error of the call that failed, and
    a failed client creation means no search is sent. *)
Theorem readFromES_results_and_errors lat lon ran σ :
  let q := geo_query lat lon ran in
  let hits := Hits (search σ POST_INDEX q) in
  match readFromES lat lon ran σ with
  | (Return (Ok posts), σ') =>
      new_calls σ σ' = search_calls q /\
      (length posts <= length hits)%nat /\
      Forall (fun p => hasFilteredWord (Message p) = false) posts /\
      clean posts = posts
  | (Return (Err e), σ') =>
      exists n, (n < 2)%nat /\
        new_calls σ σ' = take (S n) (search_calls q) /\
        verdict σ (search_calls q) n = Some e
  | (Panic _, _) => False
  end.
Proof.
  intros q hits. subst q hits.
  pose proof (readFromES_run lat lon ran σ) as H.
  destruct (readFromES lat lon ran σ) as [[[posts|e]|e] σ']; cbn in H;
    [| |done].
  - destruct H as (Hc & _ & -> & _).
    split; [by apply new_calls_app|]. split; [|split].
    + rewrite Each_omap.
      etransitivity; [apply clean_length|apply omap_length].
    + apply clean_Forall.
    + apply clean_idem.
  - destruct H as (n & Hn & Hc & _ & He & _).
    exists n. split; [done|]. split; [by apply new_calls_app|done].
Qed.

(** ** Further properties of the store adapters *)

(** X14: saveToGCS does not undo a write.  If the public-read ACL is
    refused after the close was accepted, the call returns that error and
    the object stays stored with its data but without the public ACL; if
    only the final attribute read is refused, the object stays stored and
    public although no URL is returned. *)
Theorem asset_put_is_not_rolled_back r b o σ n e :
  let cs := gcs_stages b o r in
  is_Some (gcs σ !! b) ->
  (forall k, (k < n)%nat -> verdict σ cs k = None) ->
  verdict σ cs n = Some e ->
  n = 4%nat \/ n = 5%nat ->
  exists σ',
    saveToGCS r b o σ = (Return (Err e), σ') /\
    new_calls σ σ' = take (S n) cs /\
    lookup_object σ' b o =
      Some {| obj_data := r;
              obj_acl := if (n =? 4)%nat then []
                         else [(AllUsers, RoleReader)] |}.
Proof.
  destruct σ as [g es0 bt cs0 out m rf ml se uu nw].
  cbn. intros [objs Hb] Hv Hn Hcase.
  pose proof (Hv 0%nat) as H0. pose proof (Hv 1%nat) as H1.
  pose proof (Hv 2%nat) as H2. pose proof (Hv 3%nat) as H3.
  pose proof (Hv 4%nat) as H4.
  unfold verdict in *. cbn in *. rewrite app_nil_r in H0.
  unfold saveToGCS, storage_NewClient, Bucket_Attrs, io_Copy, Writer_Close,
    ACL_Set, Object_Attrs, Object_NewWriter, bind, call, ret, gets, Printf,
    lookup_object, store_object, new_calls.
  cbn.
  destruct Hcase as [-> | ->]; cbn in *;
    specialize (H0 ltac:(lia)); specialize (H1 ltac:(lia));
    specialize (H2 ltac:(lia)); specialize (H3 ltac:(lia));
    first [specialize (H4 ltac:(lia)) | clear H4; pose proof I as H4];
    clear Hv;
    repeat (first [ rewrite H0 | rewrite H1 | rewrite H2 | rewrite H3
                  | rewrite H4 | rewrite Hn | rewrite Hb
                  | rewrite lookup_insert_eq | rewrite <- app_assoc ]; cbn);
    (eexists; split; [reflexivity|]); cbn;
    by rewrite drop_app_length, !lookup_insert_eq.
Qed.

(** X15: saveToGCS writes at most the object it is given, whatever
    happens: every other object, in this bucket or another, is as before,
    and no bucket is created or removed. *)
Theorem asset_put_is_local r b o σ :
  let σ' := snd (saveToGCS r b o σ) in
  (forall b' o', b' <> b \/ o' <> o ->
                 lookup_object σ' b' o' = lookup_object σ b' o') /\
  (forall b', is_Some (gcs σ' !! b') <-> is_Some (gcs σ !! b')).
Proof. exact (saveToGCS_frame r b o σ). Qed.

Lemma index_put_idem e i d p :
  index_put (index_put e i d p) i d p = index_put e i d p.
Proof.
  unfold index_put. rewrite lookup_insert_eq. cbn.
  by rewrite !insert_insert_eq.
Qed.

(** X16: a successful saveToES leaves the document under its id,
    replacing whatever was there, and touches no other document; writing
    the same post under the same id again changes nothing (a retry
    overwrites, it does not duplicate). *)
Theorem index_write_overwrites p id σ σ1 :
  saveToES p id σ = (Return None, σ1) ->
  lookup_doc σ1 POST_INDEX id = Some p /\
  (forall i d, i <> POST_INDEX \/ d <> id ->
               lookup_doc σ1 i d = lookup_doc σ i d) /\
  (forall σ2, saveToES p id σ1 = (Return None, σ2) -> es σ2 = es σ1).
Proof.
  intros H1.
  pose proof (saveToES_run p id σ) as R1. rewrite H1 in R1. cbn in R1.
  destruct R1 as (_ & _ & He1 & _).
  split; [by eapply lookup_doc_put|].
  split; [intros i d Hne; by eapply lookup_doc_put_ne|].
  intros σ2 H2.
  pose proof (saveToES_run p id σ1) as R2. rewrite H2 in R2. cbn in R2.
  destruct R2 as (_ & _ & He2 & _).
  rewrite He2, He1. apply index_put_idem.
Qed.

End Service.

(** ** The properties at concrete requests *)

(** An accepted post: the eight requests of the run, then the document
    and the object under the identifier drawn. *)
Example accepted_post_trace :
  new_calls Sample.quiet_world
    (snd (handlePost Sample.filter Sample.format newResponse
            Sample.hello_request Sample.quiet_world))
  = [ StorageNewClient; BucketAttrs BUCKET_NAME;
      WriterWrite BUCKET_NAME "id-0" "PNG"; WriterClose BUCKET_NAME "id-0";
      ACLSet BUCKET_NAME "id-0" AllUsers RoleReader;
      ObjectAttrsGet BUCKET_NAME "id-0";
      ElasticNewClient ES_URL;
      IndexDo POST_INDEX POST_TYPE "id-0"
        (post_of Sample.hello_request
           "https://storage.googleapis.com/zhida-post-around-image/id-0")
        "wait_for" ].
Proof. vm_compute. reflexivity. Qed.

(** A search whose hits are a clean post, a source that does not decode
    and a post the filter matches. *)
Example search_keeps_the_clean_hit :
  fst (readFromES Sample.filter Sample.decode (S754_zero false)
         (S754_zero false) "1km" Sample.quiet_world)
  = Return (Ok [ {| User := "u"; Message := "{hello";
                    Post_Location := Post_Location zeroPost; Url := "" |} ]).
Proof. vm_compute. reflexivity. Qed.

(** C1 at a request whose message contains "spam". *)
Lemma spam_rejected_witness :
  Sample.filter (FormValue Sample.spam_request "message") = true /\
  exists σ',
    handlePost_with Sample.filter Sample.format true newResponse
      Sample.spam_request Sample.quiet_world =
      (Return (http_Error (cors newResponse) MSG_FILTERED StatusBadRequest),
       σ') /\
    (status newResponse = None ->
     status (http_Error (cors newResponse) MSG_FILTERED StatusBadRequest)
     = Some StatusBadRequest) /\
    new_calls Sample.quiet_world σ' = [] /\
    gcs σ' = gcs Sample.quiet_world /\ es σ' = es Sample.quiet_world /\
    bigtable σ' = bigtable Sample.quiet_world.
Proof.
  split; [reflexivity|].
  apply (spam_rejected_before_any_store_call Sample.filter Sample.format
           true newResponse Sample.spam_request Sample.quiet_world).
  reflexivity.
Defined.

(** C9 at an accepted post, with the mirror write enabled. *)
Lemma one_id_witness :
  status newResponse = None /\
  handlePost_with Sample.filter Sample.format true newResponse
    Sample.hello_request Sample.quiet_world =
    (Return (cors newResponse),
     snd (handlePost_with Sample.filter Sample.format true newResponse
            Sample.hello_request Sample.quiet_world)) /\
  status (cors newResponse) = None /\
  exists file p,
    FormFile Sample.hello_request "image" = Ok file /\
    new_calls Sample.quiet_world
      (snd (handlePost_with Sample.filter Sample.format true newResponse
              Sample.hello_request Sample.quiet_world)) =
      gcs_stages BUCKET_NAME (drawn_id Sample.quiet_world) file ++
      index_calls (drawn_id Sample.quiet_world) p ++
      mirror_calls Sample.format (drawn_id Sample.quiet_world) p
        (now Sample.quiet_world) /\
    lookup_object
      (snd (handlePost_with Sample.filter Sample.format true newResponse
              Sample.hello_request Sample.quiet_world))
      BUCKET_NAME (drawn_id Sample.quiet_world) = Some (public_object file) /\
    lookup_doc
      (snd (handlePost_with Sample.filter Sample.format true newResponse
              Sample.hello_request Sample.quiet_world))
      POST_INDEX (drawn_id Sample.quiet_world) = Some p /\
    Url p = media_link Sample.quiet_world BUCKET_NAME
              (drawn_id Sample.quiet_world).
Proof.
  split; [reflexivity|].
  split; [vm_compute; reflexivity|].
  split; [reflexivity|].
  apply (one_id_links_asset_and_document Sample.filter Sample.format true
           newResponse Sample.hello_request Sample.quiet_world
           (cors newResponse)).
  - reflexivity.
  - vm_compute; reflexivity.
  - reflexivity.
Defined.

(** C5 at an accepted post, in a world where Bigtable cannot be reached. *)
Lemma mirror_failure_witness :
  status newResponse = None /\
  match handlePost_with Sample.filter Sample.format false newResponse
          Sample.hello_request (Sample.world Sample.bigtable_down) with
  | (Return w1, σ1) =>
      match status w1 with
      | Some _ =>
          handlePost_with Sample.filter Sample.format true newResponse
            Sample.hello_request (Sample.world Sample.bigtable_down)
          = (Return w1, σ1)
      | None =>
          match handlePost_with Sample.filter Sample.format true newResponse
                  Sample.hello_request (Sample.world Sample.bigtable_down) with
          | (Return w2, σ2) =>
              w2 = w1 /\
              calls σ2 =
                calls σ1 ++
                mirror_calls Sample.format (drawn_id (Sample.world Sample.bigtable_down))
                  (post_of Sample.hello_request
                     (media_link (Sample.world Sample.bigtable_down) BUCKET_NAME
                        (drawn_id (Sample.world Sample.bigtable_down))))
                  (now (Sample.world Sample.bigtable_down)) /\
              (forall n,
                 verdict σ1
                   (mirror_calls Sample.format
                      (drawn_id (Sample.world Sample.bigtable_down))
                      (post_of Sample.hello_request
                         (media_link (Sample.world Sample.bigtable_down)
                            BUCKET_NAME
                            (drawn_id (Sample.world Sample.bigtable_down))))
                      (now (Sample.world Sample.bigtable_down))) n = None) /\
              gcs σ2 = gcs σ1 /\ es σ2 = es σ1
          | (Panic e, σ2) =>
              exists n, (n < 2)%nat /\
                calls σ2 =
                  calls σ1 ++
                  take (S n)
                    (mirror_calls Sample.format
                       (drawn_id (Sample.world Sample.bigtable_down))
                       (post_of Sample.hello_request
                          (media_link (Sample.world Sample.bigtable_down)
                             BUCKET_NAME
                             (drawn_id (Sample.world Sample.bigtable_down))))
                       (now (Sample.world Sample.bigtable_down))) /\
                verdict σ1
                  (mirror_calls Sample.format
                     (drawn_id (Sample.world Sample.bigtable_down))
                     (post_of Sample.hello_request
                        (media_link (Sample.world Sample.bigtable_down)
                           BUCKET_NAME
                           (drawn_id (Sample.world Sample.bigtable_down))))
                     (now (Sample.world Sample.bigtable_down))) n = Some e /\
                stdout σ2 = stdout σ1 /\
                gcs σ2 = gcs σ1 /\ es σ2 = es σ1 /\
                bigtable σ2 = bigtable σ1
          end
      end
  | (Panic _, _) => False
  end.
Proof.
  split; [reflexivity|].
  apply (mirror_failure_panics Sample.filter Sample.format newResponse
           Sample.hello_request (Sample.world Sample.bigtable_down)).
  reflexivity.
Defined.

(** C10 at a search in a world whose services accept every request. *)
Lemma malformed_hits_witness :
  (forall n,
     verdict Sample.quiet_world
       (search_calls (geo_query (S754_zero false) (S754_zero false) "1km")) n
     = None) /\
  exists σ',
    readFromES Sample.filter Sample.decode (S754_zero false) (S754_zero false)
      "1km" Sample.quiet_world =
      (Return
         (Ok (clean Sample.filter
                (omap (decode_hit Sample.decode)
                   (Hits (search Sample.quiet_world POST_INDEX
                            (geo_query (S754_zero false) (S754_zero false)
                               "1km")))))), σ') /\
    (forall h, malformed Sample.decode h -> decode_hit Sample.decode h = None) /\
    (forall l1 h l2, malformed Sample.decode h ->
       Each Sample.decode (l1 ++ h :: l2) = Each Sample.decode (l1 ++ l2)) /\
    (Forall (fun h => malformed Sample.decode h \/
                      spam_hit Sample.filter Sample.decode h)
       (Hits (search Sample.quiet_world POST_INDEX
                (geo_query (S754_zero false) (S754_zero false) "1km"))) ->
     clean Sample.filter
       (omap (decode_hit Sample.decode)
          (Hits (search Sample.quiet_world POST_INDEX
                   (geo_query (S754_zero false) (S754_zero false) "1km"))))
     = []).
Proof.
  assert (H : forall n,
             verdict Sample.quiet_world
               (search_calls
                  (geo_query (S754_zero false) (S754_zero false) "1km")) n
             = None).
  { intros [|[|n]]; reflexivity. }
  split; [exact H|].
  exact (malformed_hits_are_skipped Sample.filter Sample.decode
           (S754_zero false) (S754_zero false) "1km" Sample.quiet_world H).
Defined.

(** C3 as stated fails: "1e999" does not parse ([ParseFloat] reports
    [ErrRange]), yet it is not treated as 0.0 and the request does not
    go through.  The latitude handed to the index write is +Inf, which
    the client cannot encode: the image is uploaded, the answer is the
    500 of the index write and no document is stored, where the same
    request with "0" is answered with the empty 200 and indexed. *)
Lemma range_error_is_not_zero :
  let post lat :=
    handlePost Sample.filter Sample.format newResponse
      (Sample.request lat "-122.4" "hello") Sample.quiet_world in
  strconv.ParseFloat "1e999" = (S754_infinity false, Some strconv.ErrRange) /\
  (exists body,
     new_calls Sample.quiet_world (snd (post "1e999"))
     = gcs_stages BUCKET_NAME "id-0" "PNG" ++
       [ElasticNewClient ES_URL;
        IndexDo POST_INDEX POST_TYPE "id-0" body "wait_for"] /\
     Lat (Post_Location body) = S754_infinity false /\
     Lat (Post_Location body) <> S754_zero false) /\
  fst (post "1e999")
  = Return (http_Error (cors newResponse)
              "Failed to save post to ElasticSearch"
              StatusInternalServerError) /\
  last (stdout (snd (post "1e999")))
  = Some ("Failed to save post to ElasticSearch "
          +:+ "json: unsupported value: +Inf." +:+ nl) /\
  lookup_doc (snd (post "1e999")) POST_INDEX "id-0" = None /\
  lookup_object (snd (post "1e999")) BUCKET_NAME "id-0"
  = Some (public_object "PNG") /\
  fst (post "0") = Return (cors newResponse) /\
  is_Some (lookup_doc (snd (post "0")) POST_INDEX "id-0").
Proof.
  cbv zeta.
  split; [vm_compute; reflexivity|].
  split.
  { eexists. split; [vm_compute; reflexivity|].
    split; [reflexivity|discriminate]. }
  repeat split; try (vm_compute; reflexivity).
  vm_compute. eauto.
Qed.

(** C5 as stated fails: with the secondary store enabled, the same
    request in two worlds that differ only in whether Bigtable can be
    reached ends with the empty 200 answer in one and with a panic in the
    other; the panic is not printed by the handler. *)
Lemma mirror_failure_reaches_caller :
  fst (handlePost_with Sample.filter Sample.format true newResponse
         Sample.hello_request (Sample.world Sample.accept_all))
  = Return (cors newResponse) /\
  fst (handlePost_with Sample.filter Sample.format true newResponse
         Sample.hello_request (Sample.world Sample.bigtable_down))
  = Panic "bigtable: unavailable" /\
  stdout (snd (handlePost_with Sample.filter Sample.format true newResponse
                 Sample.hello_request (Sample.world Sample.bigtable_down)))
  = stdout (snd (handlePost_with Sample.filter Sample.format false newResponse
                   Sample.hello_request (Sample.world Sample.bigtable_down))).
Proof. repeat split; vm_compute; reflexivity. Qed.

(** C6 as stated fails: the radius "0km" supplied by the caller reaches
    the backend as "0kmkm", not as "0km". *)
Lemma radius_0km_is_sent_as_0kmkm :
  exists q,
    new_calls Sample.quiet_world
      (snd (handleSearch Sample.filter Sample.decode Sample.encode newResponse
              (Sample.search_request ["0km"]) Sample.quiet_world))
    = [ElasticNewClient ES_URL; SearchDo POST_INDEX q] /\
    q_distance q = "0kmkm" /\
    q_distance q <> "0km".
Proof.
  eexists. split; [vm_compute; reflexivity|].
  split; [reflexivity|discriminate].
Qed.


(** ** The further properties at concrete inputs *)

(** Provisioning an empty cluster: four requests after the client, and
    both indices in place. *)
Example provisioning_of_an_empty_cluster :
  let run := createIndexIfNotExist "user" Cases.fresh_cluster in
  fst run = Return tt /\
  admin_calls (snd run) =
    [ AdminNewClient ES_URL; IndexExistsDo "post";
      CreateIndexDo "post" (Some POST_MAPPING);
      IndexExistsDo "user"; CreateIndexDo "user" None ] /\
  indices (snd run) = indices Cases.ready_cluster.
Proof. vm_compute. auto. Qed.

(** A cluster that cannot be reached: the first request panics. *)
Example provisioning_of_a_dead_cluster :
  let run := createIndexIfNotExist "user" Cases.dead_cluster in
  fst run = Panic "no Elasticsearch node available" /\
  admin_calls (snd run) = [ AdminNewClient ES_URL ].
Proof. vm_compute. auto. Qed.

(** X1 at an empty cluster. *)
Lemma provisioning_creates_witness :
  (forall h a, admin_refuses Cases.fresh_cluster h a = None) /\
  exists c',
    createIndexIfNotExist "user" Cases.fresh_cluster = (Return tt, c') /\
    is_Some (indices c' !! POST_INDEX) /\
    is_Some (indices c' !! "user") /\
    (forall i b, indices Cases.fresh_cluster !! i = Some b ->
                 indices c' !! i = Some b) /\
    (indices Cases.fresh_cluster !! POST_INDEX = None ->
     indices c' !! POST_INDEX = Some (Some POST_MAPPING)) /\
    (forall i, i <> POST_INDEX -> i <> "user" ->
               indices c' !! i = indices Cases.fresh_cluster !! i).
Proof.
  split; [reflexivity|].
  apply (provisioning_creates_missing_indices "user" Cases.fresh_cluster).
  reflexivity.
Defined.

(** X2 at a cluster with both indices. *)
Lemma provisioning_idempotent_witness :
  is_Some (indices Cases.ready_cluster !! POST_INDEX) /\
  is_Some (indices Cases.ready_cluster !! "user") /\
  indices (snd (createIndexIfNotExist "user" Cases.ready_cluster))
  = indices Cases.ready_cluster /\
  forall i b,
    CreateIndexDo i b ∉
      new_admin_calls Cases.ready_cluster
        (snd (createIndexIfNotExist "user" Cases.ready_cluster)).
Proof.
  assert (H1 : is_Some (indices Cases.ready_cluster !! POST_INDEX)).
  { vm_compute. eauto. }
  assert (H2 : is_Some (indices Cases.ready_cluster !! "user")).
  { vm_compute. eauto. }
  split; [exact H1|]. split; [exact H2|].
  exact (provisioning_is_idempotent "user" Cases.ready_cluster H1 H2).
Defined.

(** X4 at a post without an image part. *)
Lemma missing_image_witness :
  Sample.filter (FormValue Cases.no_image_request "message") = false /\
  FormFile Cases.no_image_request "image" = Err ErrMissingFile /\
  exists σ',
    handlePost_with Sample.filter Sample.format false newResponse
      Cases.no_image_request Sample.quiet_world =
      (Return (http_Error (cors newResponse) "Image is not available"
                 StatusBadRequest), σ') /\
    new_calls Sample.quiet_world σ' = [] /\
    gcs σ' = gcs Sample.quiet_world /\ es σ' = es Sample.quiet_world /\
    bigtable σ' = bigtable Sample.quiet_world /\
    uuid_count σ' = S (uuid_count Sample.quiet_world) /\
    stdout σ' = stdout Sample.quiet_world ++
      ["Received one post request" +:+ nl;
       "Image is not available " +:+ ErrMissingFile +:+ "." +:+ nl].
Proof.
  split; [reflexivity|]. split; [reflexivity|].
  apply (missing_image_rejected Sample.filter Sample.format false newResponse
           Cases.no_image_request Sample.quiet_world ErrMissingFile);
    reflexivity.
Defined.

(** X5 at an accepted image whose index request is refused. *)
Lemma index_failure_witness :
  fst (handlePost_with Sample.filter Sample.format false newResponse
         Sample.hello_request (Sample.world Cases.index_down))
  = Return (http_Error (cors newResponse)
              "Failed to save post to ElasticSearch"
              StatusInternalServerError) /\
  exists file n,
    FormFile Sample.hello_request "image" = Ok file /\
    (n < 2)%nat /\
    new_calls (Sample.world Cases.index_down)
      (snd (handlePost_with Sample.filter Sample.format false newResponse
              Sample.hello_request (Sample.world Cases.index_down))) =
      gcs_stages BUCKET_NAME (drawn_id (Sample.world Cases.index_down)) file ++
      take (S n)
        (index_calls (drawn_id (Sample.world Cases.index_down))
           (post_of Sample.hello_request
              (media_link (Sample.world Cases.index_down) BUCKET_NAME
                 (drawn_id (Sample.world Cases.index_down))))) /\
    lookup_object
      (snd (handlePost_with Sample.filter Sample.format false newResponse
              Sample.hello_request (Sample.world Cases.index_down)))
      BUCKET_NAME (drawn_id (Sample.world Cases.index_down))
    = Some (public_object file) /\
    es (snd (handlePost_with Sample.filter Sample.format false newResponse
               Sample.hello_request (Sample.world Cases.index_down)))
    = es (Sample.world Cases.index_down) /\
    bigtable (snd (handlePost_with Sample.filter Sample.format false
                     newResponse Sample.hello_request
                     (Sample.world Cases.index_down)))
    = bigtable (Sample.world Cases.index_down).
Proof.
  assert (H : fst (handlePost_with Sample.filter Sample.format false
                     newResponse Sample.hello_request
                     (Sample.world Cases.index_down))
              = Return (http_Error (cors newResponse)
                          "Failed to save post to ElasticSearch"
                          StatusInternalServerError)).
  { vm_compute. reflexivity. }
  split; [exact H|].
  exact (index_failure_leaves_asset Sample.filter Sample.format false
           newResponse Sample.hello_request (Sample.world Cases.index_down) H).
Defined.

(** X9 at two accepted posts, one after the other. *)
Lemma two_posts_witness :
  status newResponse = None /\
  handlePost_with Sample.filter Sample.format false newResponse
    Sample.hello_request Sample.quiet_world
  = (Return (cors newResponse),
     snd (handlePost_with Sample.filter Sample.format false newResponse
            Sample.hello_request Sample.quiet_world)) /\
  status (cors newResponse) = None /\
  handlePost_with Sample.filter Sample.format false newResponse
    (Sample.request "40.7" "-74.0" "again")
    (snd (handlePost_with Sample.filter Sample.format false newResponse
            Sample.hello_request Sample.quiet_world))
  = (Return (cors newResponse),
     snd (handlePost_with Sample.filter Sample.format false newResponse
            (Sample.request "40.7" "-74.0" "again")
            (snd (handlePost_with Sample.filter Sample.format false
                    newResponse Sample.hello_request Sample.quiet_world)))) /\
  drawn_id Sample.quiet_world <>
  drawn_id (snd (handlePost_with Sample.filter Sample.format false
                   newResponse Sample.hello_request Sample.quiet_world)) /\
  exists file1 file2,
    FormFile Sample.hello_request "image" = Ok file1 /\
    FormFile (Sample.request "40.7" "-74.0" "again") "image" = Ok file2 /\
    lookup_object
      (snd (handlePost_with Sample.filter Sample.format false newResponse
              (Sample.request "40.7" "-74.0" "again")
              (snd (handlePost_with Sample.filter Sample.format false
                      newResponse Sample.hello_request Sample.quiet_world))))
      BUCKET_NAME (drawn_id Sample.quiet_world)
    = Some (public_object file1) /\
    lookup_object
      (snd (handlePost_with Sample.filter Sample.format false newResponse
              (Sample.request "40.7" "-74.0" "again")
              (snd (handlePost_with Sample.filter Sample.format false
                      newResponse Sample.hello_request Sample.quiet_world))))
      BUCKET_NAME
      (drawn_id (snd (handlePost_with Sample.filter Sample.format false
                        newResponse Sample.hello_request Sample.quiet_world)))
    = Some (public_object file2) /\
    lookup_doc
      (snd (handlePost_with Sample.filter Sample.format false newResponse
              (Sample.request "40.7" "-74.0" "again")
              (snd (handlePost_with Sample.filter Sample.format false
                      newResponse Sample.hello_request Sample.quiet_world))))
      POST_INDEX (drawn_id Sample.quiet_world)
    = Some (post_of Sample.hello_request
              (media_link Sample.quiet_world BUCKET_NAME
                 (drawn_id Sample.quiet_world))) /\
    lookup_doc
      (snd (handlePost_with Sample.filter Sample.format false newResponse
              (Sample.request "40.7" "-74.0" "again")
              (snd (handlePost_with Sample.filter Sample.format false
                      newResponse Sample.hello_request Sample.quiet_world))))
      POST_INDEX
      (drawn_id (snd (handlePost_with Sample.filter Sample.format false
                        newResponse Sample.hello_request Sample.quiet_world)))
    = Some (post_of (Sample.request "40.7" "-74.0" "again")
              (media_link
                 (snd (handlePost_with Sample.filter Sample.format false
                         newResponse Sample.hello_request Sample.quiet_world))
                 BUCKET_NAME
                 (drawn_id
                    (snd (handlePost_with Sample.filter Sample.format false
                            newResponse Sample.hello_request
                            Sample.quiet_world))))).
Proof.
  assert (H1 : handlePost_with Sample.filter Sample.format false newResponse
                 Sample.hello_request Sample.quiet_world
               = (Return (cors newResponse),
                  snd (handlePost_with Sample.filter Sample.format false
                         newResponse Sample.hello_request Sample.quiet_world))).
  { vm_compute. reflexivity. }
  assert (H2 : handlePost_with Sample.filter Sample.format false newResponse
                 (Sample.request "40.7" "-74.0" "again")
                 (snd (handlePost_with Sample.filter Sample.format false
                         newResponse Sample.hello_request Sample.quiet_world))
               = (Return (cors newResponse),
                  snd (handlePost_with Sample.filter Sample.format false
                         newResponse (Sample.request "40.7" "-74.0" "again")
                         (snd (handlePost_with Sample.filter Sample.format
                                 false newResponse Sample.hello_request
                                 Sample.quiet_world))))).
  { vm_compute. reflexivity. }
  assert (H3 : drawn_id Sample.quiet_world <>
               drawn_id (snd (handlePost_with Sample.filter Sample.format
                                false newResponse Sample.hello_request
                                Sample.quiet_world))).
  { vm_compute. discriminate. }
  split; [reflexivity|]. split; [exact H1|]. split; [reflexivity|].
  split; [exact H2|]. split; [exact H3|].
  exact (two_posts_are_both_stored Sample.filter Sample.format false
           newResponse Sample.hello_request newResponse
           (Sample.request "40.7" "-74.0" "again") Sample.quiet_world
           (cors newResponse) _ (cors newResponse) _
           eq_refl eq_refl H1 eq_refl H2 eq_refl H3).
Defined.

(** X14 at an upload whose ACL change is refused. *)
Lemma asset_not_rolled_back_witness :
  is_Some (gcs (Sample.world Cases.acl_denied) !! BUCKET_NAME) /\
  (forall k, (k < 4)%nat ->
     verdict (Sample.world Cases.acl_denied)
       (gcs_stages BUCKET_NAME "img" "PNG") k = None) /\
  verdict (Sample.world Cases.acl_denied)
    (gcs_stages BUCKET_NAME "img" "PNG") 4
  = Some "googleapi: Error 403: Forbidden" /\
  exists σ',
    saveToGCS "PNG" BUCKET_NAME "img" (Sample.world Cases.acl_denied)
    = (Return (Err "googleapi: Error 403: Forbidden"), σ') /\
    new_calls (Sample.world Cases.acl_denied) σ'
    = take 5 (gcs_stages BUCKET_NAME "img" "PNG") /\
    lookup_object σ' BUCKET_NAME "img"
    = Some {| obj_data := "PNG"; obj_acl := [] |}.
Proof.
  assert (H1 : is_Some (gcs (Sample.world Cases.acl_denied) !! BUCKET_NAME)).
  { vm_compute. eauto. }
  assert (H2 : forall k, (k < 4)%nat ->
            verdict (Sample.world Cases.acl_denied)
              (gcs_stages BUCKET_NAME "img" "PNG") k = None).
  { intros k Hk. do 4 (destruct k as [|k]; [reflexivity|]). lia. }
  split; [exact H1|]. split; [exact H2|]. split; [reflexivity|].
  exact (asset_put_is_not_rolled_back "PNG" BUCKET_NAME "img"
           (Sample.world Cases.acl_denied) 4
           "googleapi: Error 403: Forbidden" H1 H2 eq_refl
           (or_introl eq_refl)).
Defined.

(** X16 at a first index write in the sample world. *)
Lemma index_write_witness :
  saveToES zeroPost "doc" Sample.quiet_world
  = (Return None, snd (saveToES zeroPost "doc" Sample.quiet_world)) /\
  lookup_doc (snd (saveToES zeroPost "doc" Sample.quiet_world))
    POST_INDEX "doc" = Some zeroPost /\
  (forall i d, i <> POST_INDEX \/ d <> "doc" ->
     lookup_doc (snd (saveToES zeroPost "doc" Sample.quiet_world)) i d
     = lookup_doc Sample.quiet_world i d) /\
  (forall σ2,
     saveToES zeroPost "doc" (snd (saveToES zeroPost "doc" Sample.quiet_world))
     = (Return None, σ2) ->
     es σ2 = es (snd (saveToES zeroPost "doc" Sample.quiet_world))).
Proof.
  assert (H : saveToES zeroPost "doc" Sample.quiet_world
              = (Return None,
                 snd (saveToES zeroPost "doc" Sample.quiet_world))).
  { vm_compute. reflexivity. }
  split; [exact H|].
  exact (index_write_overwrites zeroPost "doc" Sample.quiet_world _ H).
Defined.

(** A search the backend refuses: the 500 answer, the two requests of
    [readFromES] and nothing written. *)
Example refused_search_answer :
  let σ := Sample.world Cases.search_down in
  let run := handleSearch Sample.filter Sample.decode Sample.encode
               newResponse (Sample.search_request ["5"]) σ in
  fst run = Return (http_Error (cors newResponse)
                      "Failed to read post from ElasticSearch"
                      StatusInternalServerError) /\
  new_calls σ (snd run) =
    [ ElasticNewClient ES_URL;
      SearchDo POST_INDEX
        (geo_query (fst (strconv.ParseFloat "37.7"))
                   (fst (strconv.ParseFloat "-122.4")) "5km") ] /\
  es (snd run) = es σ.
Proof. vm_compute. auto. Qed.

(** A search whose latitude is not a number runs as the search at
    latitude 0 with the default radius. *)
Example search_with_a_malformed_latitude :
  handleSearch Sample.filter Sample.decode Sample.encode newResponse
    Cases.bad_search_request Sample.quiet_world
  = handleSearch Sample.filter Sample.decode Sample.encode newResponse
      (with_query Cases.bad_search_request "lat" "0") Sample.quiet_world /\
  new_calls Sample.quiet_world
    (snd (handleSearch Sample.filter Sample.decode Sample.encode newResponse
            Cases.bad_search_request Sample.quiet_world)) =
    [ ElasticNewClient ES_URL;
      SearchDo POST_INDEX
        (geo_query (S754_zero false) (fst (strconv.ParseFloat "-122.4"))
           DISTANCE) ].
Proof. vm_compute. auto. Qed.

(** A post whose latitude is not a number is indexed at latitude 0. *)
Example malformed_latitude_is_indexed_at_zero :
  let run := handlePost Sample.filter Sample.format newResponse
               (Sample.request "north" "-122.4" "hello") Sample.quiet_world in
  fst run = Return (cors newResponse) /\
  option_map (fun p => Lat (Post_Location p))
    (lookup_doc (snd run) POST_INDEX "id-0") = Some (S754_zero false).
Proof. vm_compute. auto. Qed.

(** A post whose latitude is NaN parses without error, and fails at the
    index write like one whose latitude is out of range. *)
Example nan_latitude_is_not_indexed :
  let run := handlePost Sample.filter Sample.format newResponse
               (Sample.request "NaN" "-122.4" "hello") Sample.quiet_world in
  strconv.ParseFloat "NaN" = (S754_nan, None) /\
  fst run = Return (http_Error (cors newResponse)
                      "Failed to save post to ElasticSearch"
                      StatusInternalServerError) /\
  lookup_doc (snd run) POST_INDEX "id-0" = None.
Proof. vm_compute. auto. Qed.

(** A search whose latitude is out of range: the query cannot be encoded
    and the answer is the 500 of the read, in a world whose services
    refuse nothing. *)
Example search_with_an_infinite_latitude :
  let r := {| Form := ∅; Files := Err ErrNotMultipart;
              URL_Query := {[ "lat" := ["1e999"]; "lon" := ["-122.4"] ]} |} in
  let run := handleSearch Sample.filter Sample.decode Sample.encode
               newResponse r Sample.quiet_world in
  fst run = Return (http_Error (cors newResponse)
                      "Failed to read post from ElasticSearch"
                      StatusInternalServerError) /\
  last (stdout (snd run))
  = Some ("Failed to read post from ElasticSearch "
          +:+ "json: unsupported value: +Inf." +:+ nl).
Proof. vm_compute. auto. Qed.

(** A post that is not multipart has no image either: the answer is the
    same 400, and the error printed is the one of the form parser. *)
Example plain_form_post_is_rejected :
  let run := handlePost Sample.filter Sample.format newResponse
               Cases.plain_form_request Sample.quiet_world in
  fst run = Return (http_Error (cors newResponse) "Image is not available"
                      StatusBadRequest) /\
  new_calls Sample.quiet_world (snd run) = [] /\
  last (stdout (snd run))
  = Some ("Image is not available " +:+ ErrNotMultipart +:+ "." +:+ nl).
Proof. vm_compute. auto. Qed.
